(** * Rendering and validation of two expectations

    Shallow embedding of
    - [great_expectations/expectations/core/expect_column_mean_to_be_between.py]
    - [great_expectations/expectations/core/expect_multicolumn_sum_to_equal.py]

    Python dictionaries with string keys are finite maps ([gmap string _]),
    exceptions are the left summand of a small error monad, and Python
    values are an inductive type with the interpreter's truthiness, length
    and indexing written out. *)

From Stdlib Require Import ZArith QArith Ascii String List Bool Lia.
From Stdlib Require Import Decimal DecimalPos DecimalZ DecimalString.
From stdpp Require Import base option gmap strings list fin_maps.

Local Open Scope string_scope.
#[local] Set Warnings "-register-all".

(** ** Python values *)

Module Py.

(** The values an expectation configuration can hold. Floats carry a
    rational payload: the renderers never compute with them except through
    [num_to_str], which is a parameter below. *)
Inductive PyVal : Type :=
| PyNone
| PyBool (b : bool)
| PyInt (z : Z)
| PyFloat (q : Q)
| PyStr (s : string)
| PyDatetime (t : Z)
| PyList (l : list PyVal)
| PyDict (d : list (string * PyVal)).

(** Exceptions the embedded code can raise. *)
Inductive PyErr : Type :=
| TypeError
| IndexError
| KeyError
| AttributeError
| ValueError.

(** [x is None] *)
Definition is_None (v : PyVal) : bool :=
  match v with PyNone => true | _ => false end.

(** [x is True] *)
Definition is_True (v : PyVal) : bool :=
  match v with PyBool true => true | _ => false end.

(** [x is False] *)
Definition is_False (v : PyVal) : bool :=
  match v with PyBool false => true | _ => false end.

(** The error monad: [inl e] is a raised exception. *)
Definition M (A : Type) : Type := PyErr + A.

Definition ret {A} (a : A) : M A := inr a.
Definition raise {A} (e : PyErr) : M A := inl e.
Definition bind {A B} (m : M A) (k : A -> M B) : M B :=
  match m with
  | inl e => inl e
  | inr a => k a
  end.

(** [len(x)] *)
Definition len (v : PyVal) : M Z :=
  match v with
  | PyStr s => ret (Z.of_nat (String.length s))
  | PyList l => ret (Z.of_nat (List.length l))
  | PyDict d => ret (Z.of_nat (List.length d))
  | _ => raise TypeError
  end.

(** [l[i]] on a Python list: negative indices count from the end, and
    an index outside [-len, len) raises [IndexError]. *)
Definition list_getitem {A} (l : list A) (i : Z) : M A :=
  let n := Z.of_nat (List.length l) in
  let j := if (i <? 0)%Z then (i + n)%Z else i in
  if ((j <? 0) || (n <=? j))%Z then raise IndexError
  else match l !! Z.to_nat j with
       | Some x => ret x
       | None => raise IndexError
       end.

(** [x[i]] with an integer subscript. *)
Definition getitem (v : PyVal) (i : Z) : M PyVal :=
  match v with
  | PyList l => list_getitem l i
  | PyStr s =>
      bind (list_getitem (list_ascii_of_string s) i)
           (fun c => ret (PyStr (String c EmptyString)))
  | PyDict _ => raise KeyError
  | _ => raise TypeError
  end.

(** [str(i)] of an integer, as [f"{idx!s}"] formats it. *)
Definition str_int (i : Z) : string :=
  NilZero.string_of_int (Z.to_int i).

End Py.

Export Py.

Notation "'let*' x ':=' m 'in' k" := (bind m (fun x => k))
  (at level 10, x pattern, k at level 200).

(** A Python [dict] with string keys. *)
Abbreviation dict := (gmap string PyVal).

(** [d.get(k)]: [None] when the key is missing. *)
Definition dict_get (d : dict) (k : string) : PyVal :=
  default PyNone (d !! k).

(** [d[k]]: [KeyError] when the key is missing. *)
Definition dict_getitem (d : dict) (k : string) : M PyVal :=
  match d !! k with
  | Some v => ret v
  | None => raise KeyError
  end.

(** [d.update(other)]: the bindings of [other] win. *)
Definition dict_update (d other : dict) : dict := other ∪ d.

(** [x or {}] for an optional dictionary: [None] and the empty dictionary
    are both falsy. *)
Definition or_empty (d : option dict) : dict :=
  match d with
  | Some m => if decide (m = ∅) then ∅ else m
  | None => ∅
  end.

(** [x * k] for an integer constant [k]. *)
Definition py_mul (v : PyVal) (k : Z) : M PyVal :=
  match v with
  | PyBool b => ret (PyInt ((if b then 1 else 0) * k))
  | PyInt z => ret (PyInt (z * k))
  | PyFloat q => ret (PyFloat (q * inject_Z k))
  | PyStr s => ret (PyStr (String.concat "" (replicate (Z.to_nat k) s)))
  | PyList l => ret (PyList (concat (replicate (Z.to_nat k) l)))
  | _ => raise TypeError
  end.

(** [range(n)] *)
Definition py_range (n : Z) : list Z :=
  map Z.of_nat (seq 0 (Z.to_nat n)).

(** [for x in xs: body] over a loop state [S]; an exception raised by the
    body leaves the loop. *)
Fixpoint for_in {S : Type} (xs : list Z) (body : Z -> S -> M S) (s : S) : M S :=
  match xs with
  | [] => ret s
  | x :: xs' => let* s' := body x s in for_in xs' body s'
  end.

(** ** Structures shared by the renderers *)

Record ExpectationConfiguration : Type := {
  expectation_type : string;
  kwargs : dict
}.

Record ExpectationValidationResult : Type := {
  success : bool;
  result : dict
}.

Record StringTemplate : Type := {
  template : string;
  params : dict;
  styling : PyVal
}.

Record RenderedStringTemplateContent : Type := {
  content_block_type : string;
  string_template : StringTemplate
}.

(** ** [great_expectations.render.util] *)

(** Modelled from the spec: [substitute_none_for_missing] of
    [great_expectations.render.util] is not among the sources. It returns a
    copy of [kwargs] in which every key of [kwarg_list] that is not
    specified is bound to [None]; the caller's dictionary is left alone. *)
Definition substitute_none_for_missing (kwargs : dict) (kwarg_list : list string) : dict :=
  foldl (fun new_kwargs kwarg =>
           match new_kwargs !! kwarg with
           | Some _ => new_kwargs
           | None => <[kwarg := PyNone]> new_kwargs
           end) kwargs kwarg_list.

(** Modelled from the spec: [handle_strict_min_max] of
    [great_expectations.render.util] is not among the sources. It selects
    the lower-bound phrase as "greater than or equal to" unless [strict_min],
    in which case "strictly greater than", and symmetrically the upper-bound
    phrase (spec 4.4, step 2). *)
Definition handle_strict_min_max (params : dict) : string * string :=
  let at_least_str :=
    if is_True (dict_get params "strict_min") then "strictly greater than"
    else "greater than or equal to" in
  let at_most_str :=
    if is_True (dict_get params "strict_max") then "strictly less than"
    else "less than or equal to" in
  (at_least_str, at_most_str).

(** ** [great_expectations.render.renderer_configuration] *)

Inductive RendererValueType : Type :=
| STRING
| NUMBER
| DATETIME
| BOOLEAN.

(** A parameter of a template: the value with the schema it was added
    under. *)
Record RendererParam : Type := {
  schema : list RendererValueType;
  value : PyVal
}.

Record RendererConfiguration : Type := {
  rc_kwargs : dict;
  include_column_name : bool;
  rc_params : gmap string (option RendererParam);
  template_str : string
}.

(** Modelled from the spec: [RendererConfiguration.add_param] is not among
    the sources. With no explicit value it takes the value from
    [kwargs[name]]; a [None] bound means "absent", so the parameter is bound
    to [None], and any other value (zero included, spec 3: zero and [None]
    are never conflated) is wrapped with its schema. The check of the value
    against [param_type] is not modelled. *)
Definition renderer_param (param_type : list RendererValueType) (v : PyVal)
    : option RendererParam :=
  if is_None v then None else Some {| schema := param_type; value := v |}.

Definition add_param (name : string) (param_type : list RendererValueType)
    (renderer_configuration : RendererConfiguration) : RendererConfiguration :=
  let v := dict_get (rc_kwargs renderer_configuration) name in
  let p := renderer_param param_type v in
  {| rc_kwargs := rc_kwargs renderer_configuration;
     include_column_name := include_column_name renderer_configuration;
     rc_params := <[name := p]> (rc_params renderer_configuration);
     template_str := template_str renderer_configuration |}.

(** [params.name]: the attribute exists once the parameter was added. *)
Definition params_attr (renderer_configuration : RendererConfiguration)
    (name : string) : M (option RendererParam) :=
  match rc_params renderer_configuration !! name with
  | Some p => ret p
  | None => raise AttributeError
  end.

(** [bool(params.name)]: [None] is falsy, a parameter object defines
    neither [__bool__] nor [__len__] and is truthy whatever its value. *)
Definition param_truthy (p : option RendererParam) : bool :=
  match p with
  | Some _ => true
  | None => false
  end.

(** Modelled from the spec: [Expectation._get_strict_min_string] is not
    among the sources. It reads the configuration it is given and selects
    the lower-bound phrase: "greater than or equal to" unless [strict_min],
    in which case "strictly greater than" (spec 4.4, step 2). *)
Definition _get_strict_min_string (renderer_configuration : RendererConfiguration) : string :=
  if is_True (dict_get (rc_kwargs renderer_configuration) "strict_min")
  then "strictly greater than"
  else "greater than or equal to".

(** Modelled from the spec: [Expectation._get_strict_max_string] is not
    among the sources; the upper-bound counterpart of
    [_get_strict_min_string]. *)
Definition _get_strict_max_string (renderer_configuration : RendererConfiguration) : string :=
  if is_True (dict_get (rc_kwargs renderer_configuration) "strict_max")
  then "strictly less than"
  else "less than or equal to".

(** ** Validation of an aggregate metric against bounds *)

(** A scalar a bound or an observed value can be: numeric or temporal. *)
Inductive Scalar : Type :=
| Num (q : Q)
| Temporal (t : Z).

(** A measurement handed over by the metric provider; [Undefined] is the
    NaN / undefined value. *)
Inductive Measurement : Type :=
| Observed (s : Scalar)
| Undefined.

Inductive EvaluationError : Type :=
| TypeMismatchError
| MetricUnavailable.

Inductive FailureReason : Type :=
| OutOfRange
| ValueUndefined.

Record Verdict : Type := {
  verdict_success : bool;
  observed_value : Measurement;
  failure_reason : option FailureReason
}.

(** [a <= b]; a temporal and a numeric scalar do not compare. *)
Definition scalar_le (a b : Scalar) : EvaluationError + bool :=
  match a, b with
  | Num x, Num y => inr (Qle_bool x y)
  | Temporal x, Temporal y => inr (x <=? y)%Z
  | _, _ => inl TypeMismatchError
  end.

(** [a < b] *)
Definition scalar_lt (a b : Scalar) : EvaluationError + bool :=
  match a, b with
  | Num x, Num y => inr (negb (Qle_bool y x))
  | Temporal x, Temporal y => inr (x <? y)%Z
  | _, _ => inl TypeMismatchError
  end.

(** [a == b] *)
Definition scalar_eqb (a b : Scalar) : bool :=
  match a, b with
  | Num x, Num y => Qeq_bool x y
  | Temporal x, Temporal y => (x =? y)%Z
  | _, _ => false
  end.

(** The fields the class declares (source lines 85-88), with their
    defaults [None], [None], [False], [False]. *)
Record BetweenFields : Type := {
  min_value : option Scalar;
  max_value : option Scalar;
  strict_min : bool;
  strict_max : bool
}.

Definition BetweenFields_default : BetweenFields :=
  {| min_value := None; max_value := None;
     strict_min := false; strict_max := false |}.

(** Modelled from the spec: [_validate_metric_value_between] of the base
    class is not among the sources. It is the Bound Evaluator of spec 4.1
    applied to the metric named [metric_name]: with both bounds [None] the
    rule succeeds; otherwise an undefined value fails with its own reason,
    and every bound that is present is compared with [>=] / [<=], or
    [>] / [<] when strict; success iff all imposed constraints hold. A
    metric the provider did not supply is surfaced as [MetricUnavailable]. *)
Definition _validate_metric_value_between (self : BetweenFields)
    (metric_name : string) (metrics : gmap string Measurement)
    : EvaluationError + Verdict :=
  match metrics !! metric_name with
  | None => inl MetricUnavailable
  | Some metric_value =>
      match min_value self, max_value self with
      | None, None =>
          inr {| verdict_success := true; observed_value := metric_value;
                 failure_reason := None |}
      | lo, hi =>
          match metric_value with
          | Undefined =>
              inr {| verdict_success := false; observed_value := metric_value;
                     failure_reason := Some ValueUndefined |}
          | Observed v =>
              let above_min :=
                match lo with
                | None => inr true
                | Some m => if strict_min self then scalar_lt m v else scalar_le m v
                end in
              let below_max :=
                match hi with
                | None => inr true
                | Some m => if strict_max self then scalar_lt v m else scalar_le v m
                end in
              match above_min, below_max with
              | inr a, inr b =>
                  inr {| verdict_success := a && b; observed_value := metric_value;
                         failure_reason := if a && b then None else Some OutOfRange |}
              | inl e, _ => inl e
              | _, inl e => inl e
              end
          end
      end
  end.

(** ** ExpectColumnMeanToBeBetween *)

Module ExpectColumnMeanToBeBetween.

Section Renderers.

(** [parse_row_condition_string_pandas_engine] of
    [great_expectations.render.util] is not among the sources: it is taken
    as it comes, a function from the row condition to a conditional
    template and its parameters, which may raise. *)
Variable parse_row_condition_string_pandas_engine : PyVal -> M (string * dict).

Definition add_param_args : list (string * list RendererValueType) :=
  [ ("column", [STRING]);
    ("min_value", [NUMBER; DATETIME]);
    ("max_value", [NUMBER; DATETIME]);
    ("strict_min", [BOOLEAN]);
    ("strict_max", [BOOLEAN]) ].

Definition _prescriptive_template (renderer_configuration : RendererConfiguration)
    : M RendererConfiguration :=
  let renderer_configuration :=
    foldl (fun rc '(name, param_type) => add_param name param_type rc)
          renderer_configuration add_param_args in
  let* min_value := params_attr renderer_configuration "min_value" in
  let* max_value := params_attr renderer_configuration "max_value" in
  let* template_str :=
    if negb (param_truthy min_value) && negb (param_truthy max_value)
    then ret "mean may have any numerical value."
    else
      let at_least_str := "greater than or equal to" in
      let* strict_min := params_attr renderer_configuration "strict_min" in
      let at_least_str :=
        if param_truthy strict_min
        then _get_strict_min_string renderer_configuration
        else at_least_str in
      let at_most_str := "less than or equal to" in
      let* strict_max := params_attr renderer_configuration "strict_max" in
      let at_most_str :=
        if param_truthy strict_max
        then _get_strict_max_string renderer_configuration
        else at_most_str in
      if param_truthy min_value && param_truthy max_value
      then ret ("mean must be " ++ at_least_str ++ " $min_value and "
                  ++ at_most_str ++ " $max_value.")
      else if negb (param_truthy min_value)
      then ret ("mean must be " ++ at_most_str ++ " $max_value.")
      else ret ("mean must be " ++ at_least_str ++ " $min_value.") in
  let template_str :=
    if include_column_name renderer_configuration
    then "$column " ++ template_str
    else template_str in
  ret {| rc_kwargs := rc_kwargs renderer_configuration;
         include_column_name := include_column_name renderer_configuration;
         rc_params := rc_params renderer_configuration;
         template_str := template_str |}.

Definition _prescriptive_renderer (configuration : ExpectationConfiguration)
    (result : option ExpectationValidationResult)
    (runtime_configuration : option dict)
    : M (list RenderedStringTemplateContent) :=
  let runtime_configuration := or_empty runtime_configuration in
  let include_column_name :=
    if is_False (dict_get runtime_configuration "include_column_name")
    then false else true in
  let styling := dict_get runtime_configuration "styling" in
  let params :=
    substitute_none_for_missing (kwargs configuration)
      [ "column"; "min_value"; "max_value"; "row_condition";
        "condition_parser"; "strict_min"; "strict_max" ] in
  let template_str := "" in
  let* min_value := dict_getitem params "min_value" in
  let* max_value := dict_getitem params "max_value" in
  let template_str :=
    if is_None min_value && is_None max_value
    then "mean may have any numerical value."
    else
      let '(at_least_str, at_most_str) := handle_strict_min_max params in
      if negb (is_None min_value) && negb (is_None max_value)
      then "mean must be " ++ at_least_str ++ " $min_value and "
             ++ at_most_str ++ " $max_value."
      else if is_None min_value
      then "mean must be " ++ at_most_str ++ " $max_value."
      else if is_None max_value
      then "mean must be " ++ at_least_str ++ " $min_value."
      else template_str in
  let template_str :=
    if include_column_name then "$column " ++ template_str else template_str in
  let* row_condition := dict_getitem params "row_condition" in
  let* (template_str, params) :=
    if negb (is_None row_condition)
    then
      let* (conditional_template_str, conditional_params) :=
        parse_row_condition_string_pandas_engine row_condition in
      ret (conditional_template_str ++ ", then " ++ template_str,
           dict_update params conditional_params)
    else ret (template_str, params) in
  ret [ {| content_block_type := "string_template";
           string_template := {| template := template_str;
                                 params := params;
                                 styling := styling |} |} ].

End Renderers.

Definition metric_dependencies : list string := [ "column.mean" ].

Definition _validate (self : BetweenFields) (metrics : gmap string Measurement)
    : EvaluationError + Verdict :=
  _validate_metric_value_between self "column.mean" metrics.




Section DescriptiveRenderers.

(** [f"{x:.2f}"]: the fixed-point formatting of a float is outside the
    model and is taken as it comes; it may raise on values that have no
    such format. *)
Variable format_2f : PyVal -> M string.


End DescriptiveRenderers.

End ExpectColumnMeanToBeBetween.

(** ** ExpectMulticolumnSumToEqual *)

Module ExpectMulticolumnSumToEqual.

(** The declared variants of [ignore_row_if]:
    [Literal["all_values_are_missing", "any_value_is_missing", "never"]]. *)
Inductive IgnoreRowIf : Type :=
| all_values_are_missing
| any_value_is_missing
| never.

Definition ignore_row_if_name (p : IgnoreRowIf) : string :=
  match p with
  | all_values_are_missing => "all_values_are_missing"
  | any_value_is_missing => "any_value_is_missing"
  | never => "never"
  end.

(** The class attribute default: [= "all_values_are_missing"]. *)
Definition ignore_row_if_default : IgnoreRowIf := all_values_are_missing.

Inductive ConfigurationError : Type :=
| InvalidFieldValue (field : string).

(** Modelled from the spec: the check of a declared field when a rule is
    constructed belongs to the base class, which is not among the sources.
    For the declaration
    [ignore_row_if: Literal[...] = "all_values_are_missing"] an omitted
    value takes the default, one of the three literals is accepted, and any
    other value is rejected at configuration time (spec 4.3, 9). *)
Definition validate_ignore_row_if (v : option PyVal) : ConfigurationError + IgnoreRowIf :=
  match v with
  | None => inr ignore_row_if_default
  | Some (PyStr s) =>
      if String.eqb s "all_values_are_missing" then inr all_values_are_missing
      else if String.eqb s "any_value_is_missing" then inr any_value_is_missing
      else if String.eqb s "never" then inr never
      else inl (InvalidFieldValue "ignore_row_if")
  | Some _ => inl (InvalidFieldValue "ignore_row_if")
  end.

Definition map_metric : string := "multicolumn_sum.equal".

Section Renderers.

(** [num_to_str] of [great_expectations.render.util] is not among the
    sources: it is taken as it comes, a formatter of a number (called with
    [no_scientific=True]) that may raise on other values. *)
Variable num_to_str : PyVal -> M string.

(** The body of the first loop, over the state
    [(column_list_str, params)]. *)
Definition column_list_body (idx : Z) (st : string * dict) : M (string * dict) :=
  let '(column_list_str, params) := st in
  let column_list_str := column_list_str ++ "$column_list_" ++ str_int idx ++ ", " in
  let* column_list := dict_getitem params "column_list" in
  let* x := getitem column_list idx in
  ret (column_list_str, <["column_list_" ++ str_int idx := x]> params).

Definition _prescriptive_renderer (configuration : option ExpectationConfiguration)
    (result : option ExpectationValidationResult)
    (runtime_configuration : option dict)
    : M (list RenderedStringTemplateContent) :=
  let runtime_configuration := or_empty runtime_configuration in
  let styling := dict_get runtime_configuration "styling" in
  let* configuration :=
    match configuration with
    | Some c => ret c
    | None => raise AttributeError
    end in
  let params :=
    substitute_none_for_missing (kwargs configuration)
      [ "column_list"; "sum_total"; "mostly" ] in
  let* mostly := dict_getitem params "mostly" in
  let* params :=
    if negb (is_None mostly)
    then
      let* scaled := py_mul mostly 100 in
      let* mostly_pct := num_to_str scaled in
      ret (<["mostly_pct" := PyStr mostly_pct]> params)
    else ret params in
  let mostly_str :=
    if is_None (dict_get params "mostly") then ""
    else ", at least $mostly_pct % of the time" in
  let sum_total := dict_get params "sum_total" in
  let column_list_str := "" in
  let* column_list := dict_getitem params "column_list" in
  let* n := len column_list in
  let* (column_list_str, params) :=
    for_in (py_range (n - 1)) column_list_body (column_list_str, params) in
  let* column_list := dict_getitem params "column_list" in
  let* n := len column_list in
  let last_idx := (n - 1)%Z in
  let column_list_str := column_list_str ++ "$column_list_" ++ str_int last_idx in
  let* column_list := dict_getitem params "column_list" in
  let* x := getitem column_list last_idx in
  let params := <["column_list_" ++ str_int last_idx := x]> params in
  let template_str :=
    "Sum across columns " ++ column_list_str ++ " must be $sum_total"
      ++ mostly_str ++ "." in
  ret [ {| content_block_type := "string_template";
           string_template := {| template := template_str;
                                 params := params;
                                 styling := styling |} |} ].

End Renderers.

End ExpectMulticolumnSumToEqual.

(** ** Reading templates *)

(** [p] is a prefix of [l]. *)
Fixpoint prefixb (p l : list ascii) : bool :=
  match p, l with
  | [], _ => true
  | a :: p', b :: l' => Ascii.eqb a b && prefixb p' l'
  | _ :: _, [] => false
  end.

(** [s.endswith(suf)] *)
Definition ends_with (s suf : string) : bool :=
  prefixb (rev (list_ascii_of_string suf)) (rev (list_ascii_of_string s)).

Fixpoint infixb (needle hay : list ascii) : bool :=
  prefixb needle hay ||
  match hay with
  | [] => false
  | _ :: hay' => infixb needle hay'
  end.

(** [needle in s] *)
Definition mentions (s needle : string) : bool :=
  infixb (list_ascii_of_string needle) (list_ascii_of_string s).

(** ** The phrase table of the specification *)

(** Spec 4.4, step 2, lower bound. *)
Definition spec_lower_phrase (strict : bool) : string :=
  if strict then "strictly greater than" else "greater than or equal to".

(** Spec 4.4, step 2, upper bound. *)
Definition spec_upper_phrase (strict : bool) : string :=
  if strict then "strictly less than" else "less than or equal to".

(** Spec 4.4, steps 1 to 3, as the decision table over
    [(hasMin, hasMax, strictMin, strictMax)] of spec 9. *)
Definition spec_bound_phrase (has_min has_max strict_lo strict_hi : bool) : string :=
  match has_min, has_max with
  | false, false => "mean may have any numerical value."
  | true, true =>
      "mean must be " ++ spec_lower_phrase strict_lo ++ " $min_value and "
        ++ spec_upper_phrase strict_hi ++ " $max_value."
  | false, true => "mean must be " ++ spec_upper_phrase strict_hi ++ " $max_value."
  | true, false => "mean must be " ++ spec_lower_phrase strict_lo ++ " $min_value."
  end.

(** Spec 4.4, step 4. *)
Definition spec_subject_prefix (include_subject_name : bool) : string :=
  if include_subject_name then "$column " else "".

(** [kwargs] binds [k] to something other than [None]. *)
Definition present (kw : dict) (k : string) : bool :=
  negb (is_None (dict_get kw k)).

(** [kwargs] binds the flag [k] to [True]. *)
Definition flag (kw : dict) (k : string) : bool :=
  is_True (dict_get kw k).

(** The phrase of a configuration: the table read at its four entries. *)
Definition phrase_of (kw : dict) : string :=
  spec_bound_phrase (present kw "min_value") (present kw "max_value")
                    (flag kw "strict_min") (flag kw "strict_max").

(** ** Definitions the statements use *)

(** The phrase of step 1. *)
Definition unconstrained_phrase : string := "mean may have any numerical value.".

(** The keys the legacy renderer fills in. *)
Definition legacy_keys : list string :=
  [ "column"; "min_value"; "max_value"; "row_condition";
    "condition_parser"; "strict_min"; "strict_max" ].

(** [include_column_name] as the legacy renderer reads it from the
    runtime configuration. *)
Definition include_of (runtime_configuration : option dict) : bool :=
  negb (is_False (dict_get (or_empty runtime_configuration) "include_column_name")).

(** The one-element content list both legacy renderers return. *)
Definition rendered (t : string) (p : dict) (st : PyVal)
    : list RenderedStringTemplateContent :=
  [ {| content_block_type := "string_template";
       string_template := {| template := t; params := p; styling := st |} |} ].

(** The renderer configuration once the five parameters are added. *)
Definition with_params (renderer_configuration : RendererConfiguration)
    : RendererConfiguration :=
  foldl (fun rc '(name, param_type) => add_param name param_type rc)
        renderer_configuration ExpectColumnMeanToBeBetween.add_param_args.

(** The clause the legacy renderer puts in front of the phrase for a row
    condition, given the parser. *)
Definition row_prefix (parse : PyVal -> M (string * dict)) (kw : dict) : string :=
  if is_None (dict_get kw "row_condition") then ""
  else match parse (dict_get kw "row_condition") with
       | inr (conditional_template_str, _) => conditional_template_str ++ ", then "
       | inl _ => ""
       end.

(** The configuration with its row condition removed. *)
Definition without_row_condition (cfg : ExpectationConfiguration)
    : ExpectationConfiguration :=
  {| expectation_type := expectation_type cfg;
     kwargs := delete "row_condition" (kwargs cfg) |}.

(** The placeholder of the column at index [i]. *)
Definition column_placeholder (i : nat) : string :=
  "$column_list_" ++ str_int (Z.of_nat i).

(** The name the column at index [i] is bound under. *)
Definition column_key (i : nat) : string :=
  "column_list_" ++ str_int (Z.of_nat i).

(** The bindings the loop adds, in the order it adds them. *)
Fixpoint bind_columns (cols : list PyVal) (idxs : list nat) (p : dict) : dict :=
  match idxs with
  | [] => p
  | i :: idxs' =>
      bind_columns cols idxs' (<[column_key i := default PyNone (cols !! i)]> p)
  end.

(** The placeholders of the loop, each followed by the separator. *)
Fixpoint separated (idxs : list nat) : string :=
  match idxs with
  | [] => ""
  | i :: idxs' => column_placeholder i ++ ", " ++ separated idxs'
  end.

(** A configuration whose [column_list] is empty. *)
Definition empty_column_list_configuration : ExpectationConfiguration :=
  {| expectation_type := "expect_multicolumn_sum_to_equal";
     kwargs := <["column_list" := PyList []]> (<["sum_total" := PyInt 1]> ∅) |}.

(** ** Sample inputs *)

(** A stand-in for the row-condition parser: one placeholder for a string
    condition, [TypeError] for anything else. *)
Definition sample_parse (row_condition : PyVal) : M (string * dict) :=
  match row_condition with
  | PyStr s => ret ("if $row_condition__0", {[ "row_condition__0" := PyStr s ]})
  | _ => raise TypeError
  end.

(** A stand-in for [num_to_str]: the percentage of [mostly = 0.9]. *)
Definition sample_num_to_str (x : PyVal) : M string :=
  match x with
  | PyInt _ | PyFloat _ => ret "90"
  | _ => raise TypeError
  end.

(** [min_value = 0], [max_value = 20], [strict_max = True], no row
    condition. *)
Definition zero_min_configuration : ExpectationConfiguration :=
  {| expectation_type := "expect_column_mean_to_be_between";
     kwargs := <["column" := PyStr "age"]>
               (<["min_value" := PyInt 0]>
               (<["max_value" := PyInt 20]>
               (<["strict_max" := PyBool true]> ∅))) |}.

(** The same bounds under the row condition ["age > 5"]. *)
Definition row_condition_configuration : ExpectationConfiguration :=
  {| expectation_type := "expect_column_mean_to_be_between";
     kwargs := <["row_condition" := PyStr "age > 5"]> (kwargs zero_min_configuration) |}.

Definition zero_min_renderer_configuration : RendererConfiguration :=
  {| rc_kwargs := kwargs zero_min_configuration;
     include_column_name := true;
     rc_params := ∅;
     template_str := "" |}.

(** A runtime configuration that switches the column name off. *)
Definition no_column_name : dict :=
  {[ "include_column_name" := PyBool false ]}.

(** Scenario A of the specification: bounds 10 and 20. *)
Definition scenario_A (strict_lo strict_hi : bool) : BetweenFields :=
  {| min_value := Some (Num 10); max_value := Some (Num 20);
     strict_min := strict_lo; strict_max := strict_hi |}.

Definition mean_is (v : Q) : gmap string Measurement :=
  {[ "column.mean" := Observed (Num v) ]}.

(** Three columns, [sum_total = 3], [mostly = 0.9]. *)
Definition three_columns_configuration : ExpectationConfiguration :=
  {| expectation_type := "expect_multicolumn_sum_to_equal";
     kwargs := <["column_list" := PyList [PyStr "a"; PyStr "b"; PyStr "c"]]>
               (<["sum_total" := PyInt 3]>
               (<["mostly" := PyFloat (9 # 10)]> ∅)) |}.

(** ** Definitions for the further properties *)


(** The elements of a value that has a length and integer subscripts with
    values: a list, or a string read character by character. *)
Definition items_of (v : PyVal) : option (list PyVal) :=
  match v with
  | PyList l => Some l
  | PyStr s => Some (map (fun c => PyStr (String c EmptyString)) (list_ascii_of_string s))
  | _ => None
  end.

(** What a [column_list] without elements to subscript makes the
    multicolumn renderer raise: a dictionary has a length but no integer
    keys, anything else has no length. *)
Definition column_list_error (v : PyVal) : PyErr :=
  match v with
  | PyDict _ => KeyError
  | _ => TypeError
  end.

(** The keys the multicolumn renderer fills in. *)
Definition sum_keys : list string := [ "column_list"; "sum_total"; "mostly" ].

(** The params of the multicolumn renderer before its loop: the kwargs
    with [mostly_pct] added when [mostly] is given. *)
Definition sum_params (num_to_str : PyVal -> M string) (kw : dict) : M dict :=
  let params := substitute_none_for_missing kw sum_keys in
  if negb (is_None (dict_get kw "mostly"))
  then
    let* scaled := py_mul (dict_get kw "mostly") 100 in
    let* mostly_pct := num_to_str scaled in
    ret (<["mostly_pct" := PyStr mostly_pct]> params)
  else ret params.

(** The template of the multicolumn renderer for [n] columns. *)
Definition sum_template (n : nat) (with_mostly : bool) : string :=
  "Sum across columns "
    ++ String.concat ", " (map column_placeholder (seq 0 n))
    ++ " must be $sum_total"
    ++ (if with_mostly then ", at least $mostly_pct % of the time" else "")
    ++ ".".

(** Other bounds than [zero_min_configuration], present on the same
    sides. *)
Definition other_bounds_configuration : ExpectationConfiguration :=
  {| expectation_type := "expect_column_mean_to_be_between";
     kwargs := <["column" := PyStr "height"]>
               (<["min_value" := PyFloat (3 # 2)]>
               (<["max_value" := PyInt 7]>
               (<["strict_min" := PyBool false]>
               (<["strict_max" := PyBool true]> ∅)))) |}.

Definition other_bounds_renderer_configuration : RendererConfiguration :=
  {| rc_kwargs := kwargs other_bounds_configuration;
     include_column_name := true;
     rc_params := ∅;
     template_str := "stale" |}.


(** A [mostly] that has no product with 100. *)
Definition bad_mostly_configuration : ExpectationConfiguration :=
  {| expectation_type := "expect_multicolumn_sum_to_equal";
     kwargs := <["column_list" := PyList [PyStr "a"]]>
               (<["mostly" := PyDatetime 0]> ∅) |}.

(** Three other columns, another total, another [mostly]. *)
Definition other_columns_configuration : ExpectationConfiguration :=
  {| expectation_type := "expect_multicolumn_sum_to_equal";
     kwargs := <["column_list" := PyList [PyStr "x"; PyStr "y"; PyStr "z"]]>
               (<["sum_total" := PyInt 100]>
               (<["mostly" := PyFloat (1 # 2)]> ∅)) |}.

(** A column list given as one string. *)
Definition string_column_list_configuration : ExpectationConfiguration :=
  {| expectation_type := "expect_multicolumn_sum_to_equal";
     kwargs := <["column_list" := PyStr "ab"]> (<["sum_total" := PyInt 3]> ∅) |}.

(** ** Facts about strings and dictionaries *)

Section StringFacts.

Lemma list_ascii_of_string_app (a b : string) :
  list_ascii_of_string (a ++ b) = (list_ascii_of_string a ++ list_ascii_of_string b)%list.
Proof.
  induction a as [|c a IH]; simpl; [reflexivity|]. now rewrite IH.
Qed.

Lemma length_list_ascii (a : string) :
  List.length (list_ascii_of_string a) = String.length a.
Proof.
  induction a as [|c a IH]; simpl; [reflexivity|]. now rewrite IH.
Qed.

Lemma prefixb_refl (p x : list ascii) : prefixb p (p ++ x)%list = true.
Proof.
  induction p as [|c p IH]; simpl; [reflexivity|].
  now rewrite Ascii.eqb_refl, IH.
Qed.

Lemma prefixb_app_long (p r x : list ascii) :
  (List.length p <= List.length r)%nat -> prefixb p (r ++ x)%list = prefixb p r.
Proof.
  revert r. induction p as [|c p IH]; intros r Hlen; [reflexivity|].
  destruct r as [|d r]; simpl in *; [lia|].
  rewrite IH by lia. reflexivity.
Qed.

Lemma ends_with_app (a b suf : string) :
  (String.length suf <= String.length b)%nat ->
  ends_with (a ++ b) suf = ends_with b suf.
Proof.
  intros Hlen. unfold ends_with.
  rewrite list_ascii_of_string_app, rev_app_distr.
  apply prefixb_app_long.
  rewrite !length_rev, !length_list_ascii. exact Hlen.
Qed.

Lemma infixb_app_r (needle a b : list ascii) :
  infixb needle b = true -> infixb needle (a ++ b)%list = true.
Proof.
  intros H. induction a as [|c a IH]; simpl; [exact H|].
  rewrite IH. apply orb_true_r.
Qed.

Lemma mentions_app_r (a b needle : string) :
  mentions b needle = true -> mentions (a ++ b) needle = true.
Proof.
  unfold mentions. rewrite list_ascii_of_string_app. apply infixb_app_r.
Qed.

Lemma string_app_assoc (a b c : string) : (a ++ b) ++ c = a ++ (b ++ c).
Proof.
  induction a as [|x a IH]; [reflexivity|].
  change (String x ((a ++ b) ++ c) = String x (a ++ (b ++ c))).
  f_equal. exact IH.
Qed.

End StringFacts.

Section DictFacts.

Lemma substitute_cons (kw : dict) (a : string) (keys : list string) :
  substitute_none_for_missing kw (a :: keys) =
  substitute_none_for_missing
    (match kw !! a with Some _ => kw | None => <[a := PyNone]> kw end) keys.
Proof. reflexivity. Qed.

Lemma substitute_get (kw : dict) (keys : list string) (k : string) :
  dict_get (substitute_none_for_missing kw keys) k = dict_get kw k.
Proof.
  revert kw. induction keys as [|a keys IH]; intros kw; [reflexivity|].
  rewrite substitute_cons, IH. destruct (kw !! a) eqn:Ha; [reflexivity|].
  unfold dict_get. destruct (decide (a = k)) as [->|Hne].
  - now rewrite lookup_insert_eq, Ha.
  - now rewrite lookup_insert_ne.
Qed.

Lemma substitute_keeps (kw : dict) (keys : list string) (k : string) (v : PyVal) :
  kw !! k = Some v -> substitute_none_for_missing kw keys !! k = Some v.
Proof.
  revert kw. induction keys as [|a keys IH]; intros kw Hk; [exact Hk|].
  rewrite substitute_cons. apply IH. destruct (kw !! a) eqn:Ha; [exact Hk|].
  rewrite lookup_insert_ne; [exact Hk|]. intros ->. congruence.
Qed.

Lemma substitute_lookup (kw : dict) (keys : list string) (k : string) :
  k ∈ keys ->
  substitute_none_for_missing kw keys !! k = Some (dict_get kw k).
Proof.
  revert kw. induction keys as [|a keys IH]; intros kw Hin;
    [now apply elem_of_nil in Hin|].
  rewrite substitute_cons. destruct (decide (k = a)) as [->|Hne].
  - destruct (kw !! a) as [v|] eqn:Ha.
    + rewrite (substitute_keeps kw keys a v Ha). unfold dict_get. now rewrite Ha.
    + rewrite (substitute_keeps _ keys a PyNone) by apply lookup_insert_eq.
      unfold dict_get. now rewrite Ha.
  - apply elem_of_cons in Hin as [?|Hin]; [congruence|].
    rewrite IH by exact Hin. f_equal.
    destruct (kw !! a) eqn:Ha; [reflexivity|].
    unfold dict_get. now rewrite lookup_insert_ne.
Qed.

Lemma substitute_getitem (kw : dict) (keys : list string) (k : string) :
  k ∈ keys ->
  dict_getitem (substitute_none_for_missing kw keys) k = ret (dict_get kw k).
Proof.
  intros Hin. unfold dict_getitem. now rewrite substitute_lookup.
Qed.

Lemma handle_strict_min_max_spec (kw : dict) (keys : list string) :
  handle_strict_min_max (substitute_none_for_missing kw keys) =
  (spec_lower_phrase (flag kw "strict_min"), spec_upper_phrase (flag kw "strict_max")).
Proof.
  unfold handle_strict_min_max, spec_lower_phrase, spec_upper_phrase, flag.
  now rewrite !substitute_get.
Qed.

End DictFacts.

(** ** The phrase table read back *)

Section PhraseFacts.

Lemma present_false_iff (kw : dict) (k : string) :
  present kw k = false <-> dict_get kw k = PyNone.
Proof.
  unfold present. destruct (dict_get kw k); simpl; split; congruence.
Qed.

Lemma present_true_iff (kw : dict) (k : string) :
  present kw k = true <-> dict_get kw k <> PyNone.
Proof.
  unfold present. destruct (dict_get kw k); simpl; split; congruence.
Qed.

Lemma phrase_ends_unconstrained (pre : string) (kw : dict) :
  ends_with (pre ++ phrase_of kw) unconstrained_phrase =
  negb (present kw "min_value") && negb (present kw "max_value").
Proof.
  unfold phrase_of.
  destruct (present kw "min_value"), (present kw "max_value"),
           (flag kw "strict_min"), (flag kw "strict_max");
    (rewrite ends_with_app by (vm_compute; lia)); reflexivity.
Qed.

Lemma phrase_mentions_min (pre : string) (kw : dict) :
  present kw "min_value" = true ->
  mentions (pre ++ phrase_of kw) "$min_value" = true.
Proof.
  intros H. apply mentions_app_r. unfold phrase_of. rewrite H.
  destruct (present kw "max_value"), (flag kw "strict_min"), (flag kw "strict_max");
    reflexivity.
Qed.

Lemma phrase_mentions_max (pre : string) (kw : dict) :
  present kw "max_value" = true ->
  mentions (pre ++ phrase_of kw) "$max_value" = true.
Proof.
  intros H. apply mentions_app_r. unfold phrase_of. rewrite H.
  destruct (present kw "min_value"), (flag kw "strict_min"), (flag kw "strict_max");
    reflexivity.
Qed.

End PhraseFacts.

(** ** The mean-between renderers in normal form *)

Section MeanBetweenFacts.

Import ExpectColumnMeanToBeBetween.

Variable parse : PyVal -> M (string * dict).

Lemma legacy_normal_form (cfg : ExpectationConfiguration)
    (res : option ExpectationValidationResult) (rc : option dict) :
  _prescriptive_renderer parse cfg res rc =
  let kw := kwargs cfg in
  let body := spec_subject_prefix (include_of rc) ++ phrase_of kw in
  let st := dict_get (or_empty rc) "styling" in
  let p := substitute_none_for_missing kw legacy_keys in
  if is_None (dict_get kw "row_condition")
  then ret (rendered body p st)
  else let* (ct, cp) := parse (dict_get kw "row_condition") in
       ret (rendered (ct ++ ", then " ++ body) (dict_update p cp) st).
Proof.
  unfold _prescriptive_renderer. fold legacy_keys.
  rewrite !substitute_getitem by (unfold legacy_keys; set_solver).
  cbn [bind ret]. rewrite handle_strict_min_max_spec.
  unfold phrase_of, present, include_of, spec_subject_prefix.
  destruct (is_None (dict_get (kwargs cfg) "min_value")),
           (is_None (dict_get (kwargs cfg) "max_value")),
           (is_False (dict_get (or_empty rc) "include_column_name")),
           (is_None (dict_get (kwargs cfg) "row_condition"));
    cbn; try reflexivity;
    destruct (parse (dict_get (kwargs cfg) "row_condition")) as [e|[ct cp]];
    reflexivity.
Qed.

Lemma with_params_kwargs (rcfg : RendererConfiguration) :
  rc_kwargs (with_params rcfg) = rc_kwargs rcfg.
Proof. reflexivity. Qed.

Lemma with_params_include (rcfg : RendererConfiguration) :
  include_column_name (with_params rcfg) = include_column_name rcfg.
Proof. reflexivity. Qed.

Lemma param_truthy_present (ty : list RendererValueType) (kw : dict) (k : string) :
  param_truthy (renderer_param ty (dict_get kw k)) = present kw k.
Proof.
  unfold renderer_param, present. now destruct (is_None (dict_get kw k)).
Qed.

Lemma present_flag_select {A : Type} (kw : dict) (k : string) (x y : A) :
  (if present kw k then if is_True (dict_get kw k) then x else y else y) =
  (if flag kw k then x else y).
Proof.
  unfold present, flag. now destruct (dict_get kw k) as [|[|]| | | | | |].
Qed.

Lemma with_params_attr (rcfg : RendererConfiguration) (k : string)
    (ty : list RendererValueType) :
  (k, ty) ∈ add_param_args ->
  params_attr (with_params rcfg) k = ret (renderer_param ty (dict_get (rc_kwargs rcfg) k)).
Proof.
  intros Hin. unfold params_attr, with_params, add_param_args in *.
  cbn [foldl add_param rc_params rc_kwargs].
  repeat (apply elem_of_cons in Hin as [Heq|Hin];
          [injection Heq as -> ->;
           repeat (rewrite lookup_insert_ne by done);
           now rewrite lookup_insert_eq|]).
  now apply elem_of_nil in Hin.
Qed.

(** Reads [params.k] once the parameters are added. *)
Ltac read_attr rcfg k ty :=
  rewrite (with_params_attr rcfg k ty) by (unfold add_param_args; set_solver).

Lemma template_normal_form (rcfg : RendererConfiguration) :
  _prescriptive_template rcfg =
  ret {| rc_kwargs := rc_kwargs rcfg;
         include_column_name := include_column_name rcfg;
         rc_params := rc_params (with_params rcfg);
         template_str := spec_subject_prefix (include_column_name rcfg)
                           ++ phrase_of (rc_kwargs rcfg) |}.
Proof.
  unfold _prescriptive_template. fold (with_params rcfg).
  read_attr rcfg "min_value" [NUMBER; DATETIME].
  read_attr rcfg "max_value" [NUMBER; DATETIME].
  read_attr rcfg "strict_min" [BOOLEAN].
  read_attr rcfg "strict_max" [BOOLEAN].
  cbn [bind ret]. rewrite !param_truthy_present.
  rewrite with_params_kwargs, with_params_include.
  unfold _get_strict_min_string, _get_strict_max_string.
  rewrite with_params_kwargs.
  rewrite !present_flag_select.
  unfold phrase_of, spec_bound_phrase, spec_lower_phrase, spec_upper_phrase,
    spec_subject_prefix.
  destruct (present (rc_kwargs rcfg) "min_value"),
           (present (rc_kwargs rcfg) "max_value"),
           (include_column_name rcfg); reflexivity.
Qed.

(** Whenever the row condition, if any, parses, the legacy renderer returns
    one content block: row clause, subject placeholder, phrase of the
    table. *)
Lemma legacy_returns (cfg : ExpectationConfiguration)
    (res : option ExpectationValidationResult) (rc : option dict) :
  (present (kwargs cfg) "row_condition" = true ->
   exists r, parse (dict_get (kwargs cfg) "row_condition") = inr r) ->
  exists p,
    _prescriptive_renderer parse cfg res rc =
    inr (rendered (row_prefix parse (kwargs cfg)
                     ++ spec_subject_prefix (include_of rc)
                     ++ phrase_of (kwargs cfg)) p
                  (dict_get (or_empty rc) "styling")).
Proof.
  intros Hparse. rewrite legacy_normal_form. cbn zeta.
  unfold present in Hparse. unfold row_prefix.
  destruct (is_None (dict_get (kwargs cfg) "row_condition")).
  - eexists. reflexivity.
  - destruct (Hparse eq_refl) as [[ct cp] Hr]. rewrite Hr. cbn [bind ret].
    eexists. now rewrite !string_app_assoc.
Qed.

Lemma no_bound_iff (kw : dict) :
  negb (present kw "min_value") && negb (present kw "max_value") = true <->
  dict_get kw "min_value" = PyNone /\ dict_get kw "max_value" = PyNone.
Proof.
  rewrite andb_true_iff, !negb_true_iff, !present_false_iff. reflexivity.
Qed.

(** C1. The unconstrained phrase "mean may have any numerical value." ends
    the template if and only if both [min_value] and [max_value] are [None],
    in the legacy renderer (whenever the row condition, if any, parses) and
    in the new-style template alike; a [min_value] that is not [None] (the
    scalar 0 included) gives a phrase that mentions [$min_value]. *)
Theorem unconstrained_iff_both_bounds_None (cfg : ExpectationConfiguration)
    (res : option ExpectationValidationResult) (rc : option dict)
    (rcfg : RendererConfiguration) :
  (present (kwargs cfg) "row_condition" = true ->
   exists r, parse (dict_get (kwargs cfg) "row_condition") = inr r) ->
  (exists t,
     _prescriptive_renderer parse cfg res rc = inr [t] /\
     (ends_with (template (string_template t)) unconstrained_phrase = true <->
      dict_get (kwargs cfg) "min_value" = PyNone /\
      dict_get (kwargs cfg) "max_value" = PyNone) /\
     (dict_get (kwargs cfg) "min_value" <> PyNone ->
      mentions (template (string_template t)) "$min_value" = true)) /\
  (exists r,
     _prescriptive_template rcfg = inr r /\
     (ends_with (template_str r) unconstrained_phrase = true <->
      dict_get (rc_kwargs rcfg) "min_value" = PyNone /\
      dict_get (rc_kwargs rcfg) "max_value" = PyNone) /\
     (dict_get (rc_kwargs rcfg) "min_value" <> PyNone ->
      mentions (template_str r) "$min_value" = true)).
Proof.
  intros Hparse. split.
  - destruct (legacy_returns cfg res rc Hparse) as (p & ->).
    eexists. split; [reflexivity|]. cbn [template string_template].
    rewrite <- string_app_assoc. split.
    + rewrite phrase_ends_unconstrained. apply no_bound_iff.
    + intros Hmin. apply phrase_mentions_min. now apply present_true_iff.
  - rewrite template_normal_form. eexists. split; [reflexivity|].
    cbn [template_str]. split.
    + rewrite phrase_ends_unconstrained. apply no_bound_iff.
    + intros Hmin. apply phrase_mentions_min. now apply present_true_iff.
Qed.

Lemma or_empty_get (rc : option dict) (k : string) :
  dict_get (or_empty rc) k =
  match rc with Some d => dict_get d k | None => PyNone end.
Proof.
  destruct rc as [d|]; [|reflexivity]. unfold or_empty.
  destruct (decide (d = ∅)) as [->|]; reflexivity.
Qed.

Lemma dict_get_delete_ne (kw : dict) (k k' : string) :
  k <> k' -> dict_get (delete k kw) k' = dict_get kw k'.
Proof.
  intros Hne. unfold dict_get. now rewrite lookup_delete_ne.
Qed.

Lemma phrase_of_without_row_condition (kw : dict) :
  phrase_of (delete "row_condition" kw) = phrase_of kw.
Proof.
  unfold phrase_of, present, flag. now rewrite !dict_get_delete_ne by done.
Qed.

(** C3. For one and the same configuration, with the column name included
    on both sides (or left out on both) and no row condition, the template
    string of the new-style [_prescriptive_template] is the template string
    of the legacy [_prescriptive_renderer]. *)
Theorem template_agrees_with_legacy (cfg : ExpectationConfiguration)
    (res : option ExpectationValidationResult) (rc : option dict)
    (rcfg : RendererConfiguration) :
  rc_kwargs rcfg = kwargs cfg ->
  include_column_name rcfg = include_of rc ->
  dict_get (kwargs cfg) "row_condition" = PyNone ->
  exists t r,
    _prescriptive_renderer parse cfg res rc = inr [t] /\
    _prescriptive_template rcfg = inr r /\
    template_str r = template (string_template t).
Proof.
  intros Hkw Hinc Hrow.
  rewrite legacy_normal_form, template_normal_form. cbn zeta.
  rewrite Hrow. cbn [is_None]. eexists _, _.
  split; [reflexivity|]. split; [reflexivity|].
  cbn [template_str template string_template]. now rewrite Hkw, Hinc.
Qed.

(** C4. With at least one bound present, the lower-bound phrase is "greater
    than or equal to" unless [strict_min] is [True], in which case it is the
    strict variant, and symmetrically the upper-bound phrase with
    [strict_max]; the template ends with the single-sided clause when one
    bound is present and with the lower-bound clause, "and", the upper-bound
    clause, in that order, when both are; in the legacy renderer and in the
    new-style template alike. *)
Theorem bound_phrase_selection (cfg : ExpectationConfiguration)
    (res : option ExpectationValidationResult) (rc : option dict)
    (rcfg : RendererConfiguration) :
  (present (kwargs cfg) "row_condition" = true ->
   exists r, parse (dict_get (kwargs cfg) "row_condition") = inr r) ->
  rc_kwargs rcfg = kwargs cfg ->
  present (kwargs cfg) "min_value" || present (kwargs cfg) "max_value" = true ->
  let at_least_str :=
    if is_True (dict_get (kwargs cfg) "strict_min")
    then "strictly greater than" else "greater than or equal to" in
  let at_most_str :=
    if is_True (dict_get (kwargs cfg) "strict_max")
    then "strictly less than" else "less than or equal to" in
  let clauses :=
    if present (kwargs cfg) "min_value"
    then if present (kwargs cfg) "max_value"
         then "mean must be " ++ at_least_str ++ " $min_value and "
                ++ at_most_str ++ " $max_value."
         else "mean must be " ++ at_least_str ++ " $min_value."
    else "mean must be " ++ at_most_str ++ " $max_value." in
  exists t r,
    _prescriptive_renderer parse cfg res rc = inr [t] /\
    template (string_template t) =
      row_prefix parse (kwargs cfg) ++ spec_subject_prefix (include_of rc) ++ clauses /\
    _prescriptive_template rcfg = inr r /\
    template_str r = spec_subject_prefix (include_column_name rcfg) ++ clauses.
Proof.
  intros Hparse Hkw Hbound at_least_str at_most_str clauses.
  assert (Hphrase : phrase_of (kwargs cfg) = clauses).
  { subst clauses at_least_str at_most_str.
    unfold phrase_of, spec_bound_phrase, spec_lower_phrase, spec_upper_phrase, flag.
    destruct (present (kwargs cfg) "min_value"),
             (present (kwargs cfg) "max_value"); try reflexivity.
    discriminate Hbound. }
  destruct (legacy_returns cfg res rc Hparse) as (p & Hleg).
  rewrite Hleg, template_normal_form. eexists _, _.
  split; [reflexivity|]. cbn [template string_template template_str].
  rewrite Hkw, Hphrase. auto.
Qed.

(** C6. When a row condition is supplied and parses to a clause with its
    parameters, the legacy renderer returns the template it returns without
    the row condition, prefixed with the clause followed by ", then ", and
    the clause's parameters are merged into the returned params; without a
    row condition the template is the subject prefix and the phrase,
    unchanged. *)
Theorem row_condition_prefix (cfg : ExpectationConfiguration)
    (res : option ExpectationValidationResult) (rc : option dict)
    (conditional_template_str : string) (conditional_params : dict) :
  (dict_get (kwargs cfg) "row_condition" <> PyNone ->
   parse (dict_get (kwargs cfg) "row_condition") =
     inr (conditional_template_str, conditional_params)) ->
  exists t0 t,
    _prescriptive_renderer parse (without_row_condition cfg) res rc = inr [t0] /\
    _prescriptive_renderer parse cfg res rc = inr [t] /\
    template (string_template t0) =
      spec_subject_prefix (include_of rc) ++ phrase_of (kwargs cfg) /\
    styling (string_template t) = styling (string_template t0) /\
    (dict_get (kwargs cfg) "row_condition" <> PyNone ->
       template (string_template t) =
         conditional_template_str ++ ", then " ++ template (string_template t0) /\
       params (string_template t) =
         conditional_params ∪ substitute_none_for_missing (kwargs cfg) legacy_keys) /\
    (dict_get (kwargs cfg) "row_condition" = PyNone ->
       template (string_template t) = template (string_template t0) /\
       params (string_template t) =
         substitute_none_for_missing (kwargs cfg) legacy_keys).
Proof.
  intros Hparse. rewrite !legacy_normal_form. cbn zeta.
  cbn [without_row_condition kwargs].
  replace (dict_get (delete "row_condition" (kwargs cfg)) "row_condition")
    with PyNone by (unfold dict_get; now rewrite lookup_delete_eq).
  cbn [is_None]. rewrite phrase_of_without_row_condition.
  destruct (dict_get (kwargs cfg) "row_condition") eqn:Hrow;
    try (rewrite Hparse by discriminate); cbn [is_None bind ret];
    (eexists _, _;
     split; [reflexivity|]; split; [reflexivity|];
     split; [reflexivity|]; split; [reflexivity|];
     cbn [template params string_template rendered hd];
     split; intros Hc;
     first [discriminate Hc | now contradiction Hc | (split; reflexivity)]).
Qed.

(** C10. With [include_column_name] left at its default (the runtime
    configuration is missing, or does not bind it to [False]) the legacy
    template is the row clause, if any, then "$column " followed by the bound
    phrase; with [include_column_name] explicitly [False] the "$column "
    prefix is left out and the rest of the template is the same. The
    new-style template does the same on its [include_column_name] field. *)
Theorem column_name_prefix (cfg : ExpectationConfiguration)
    (res : option ExpectationValidationResult) (rc_on : option dict)
    (rc_off : dict) (rcfg : RendererConfiguration) :
  (present (kwargs cfg) "row_condition" = true ->
   exists r, parse (dict_get (kwargs cfg) "row_condition") = inr r) ->
  (forall d, rc_on = Some d -> d !! "include_column_name" <> Some (PyBool false)) ->
  rc_off !! "include_column_name" = Some (PyBool false) ->
  exists t_on t_off r,
    _prescriptive_renderer parse cfg res rc_on = inr [t_on] /\
    _prescriptive_renderer parse cfg res (Some rc_off) = inr [t_off] /\
    template (string_template t_on) =
      row_prefix parse (kwargs cfg) ++ "$column " ++ phrase_of (kwargs cfg) /\
    template (string_template t_off) =
      row_prefix parse (kwargs cfg) ++ phrase_of (kwargs cfg) /\
    (dict_get (kwargs cfg) "row_condition" = PyNone ->
       template (string_template t_on) = "$column " ++ template (string_template t_off)) /\
    _prescriptive_template rcfg = inr r /\
    template_str r =
      (if include_column_name rcfg then "$column " else "") ++ phrase_of (rc_kwargs rcfg).
Proof.
  intros Hparse Hon Hoff.
  destruct (legacy_returns cfg res rc_on Hparse) as (p_on & Hr_on).
  destruct (legacy_returns cfg res (Some rc_off) Hparse) as (p_off & Hr_off).
  assert (Hi_on : include_of rc_on = true).
  { unfold include_of. rewrite or_empty_get. destruct rc_on as [d|]; [|reflexivity].
    specialize (Hon d eq_refl). unfold dict_get.
    destruct (d !! "include_column_name") as [[|[|]| | | | | |]|]; try reflexivity.
    now contradiction Hon. }
  assert (Hi_off : include_of (Some rc_off) = false).
  { unfold include_of. rewrite or_empty_get. unfold dict_get. now rewrite Hoff. }
  rewrite Hi_on in Hr_on. rewrite Hi_off in Hr_off.
  rewrite Hr_on, Hr_off, template_normal_form. eexists _, _, _.
  split; [reflexivity|]. split; [reflexivity|].
  cbn [template string_template template_str spec_subject_prefix].
  split; [reflexivity|]. split; [reflexivity|]. split; [|split; reflexivity].
  intros Hrow. unfold row_prefix. rewrite Hrow. reflexivity.
Qed.

End MeanBetweenFacts.

(** ** Validation at the endpoints *)

Section BoundFacts.

Import ExpectColumnMeanToBeBetween.

Lemma scalar_le_eq_l (v lo : Scalar) :
  scalar_eqb v lo = true -> scalar_le lo v = inr true.
Proof.
  destruct v as [x|x], lo as [y|y]; simpl; try discriminate; intros H.
  - apply Qeq_bool_iff in H. f_equal. apply Qle_bool_iff. rewrite H. apply Qle_refl.
  - apply Z.eqb_eq in H. subst. f_equal. apply Z.leb_refl.
Qed.

Lemma scalar_le_eq_r (v hi : Scalar) :
  scalar_eqb v hi = true -> scalar_le v hi = inr true.
Proof.
  destruct v as [x|x], hi as [y|y]; simpl; try discriminate; intros H.
  - apply Qeq_bool_iff in H. f_equal. apply Qle_bool_iff. rewrite H. apply Qle_refl.
  - apply Z.eqb_eq in H. subst. f_equal. apply Z.leb_refl.
Qed.

Lemma scalar_lt_eq_l (v lo : Scalar) :
  scalar_eqb v lo = true -> scalar_lt lo v = inr false.
Proof.
  destruct v as [x|x], lo as [y|y]; simpl; try discriminate; intros H.
  - apply Qeq_bool_iff in H. f_equal. apply negb_false_iff, Qle_bool_iff.
    rewrite H. apply Qle_refl.
  - apply Z.eqb_eq in H. subst. f_equal. apply Z.ltb_irrefl.
Qed.

Lemma scalar_lt_eq_r (v hi : Scalar) :
  scalar_eqb v hi = true -> scalar_lt v hi = inr false.
Proof.
  destruct v as [x|x], hi as [y|y]; simpl; try discriminate; intros H.
  - apply Qeq_bool_iff in H. f_equal. apply negb_false_iff, Qle_bool_iff.
    rewrite H. apply Qle_refl.
  - apply Z.eqb_eq in H. subst. f_equal. apply Z.ltb_irrefl.
Qed.

Lemma scalar_le_trans_eq_l (v lo hi : Scalar) :
  scalar_eqb v lo = true -> scalar_le lo hi = inr true -> scalar_le v hi = inr true.
Proof.
  destruct v as [x|x], lo as [y|y], hi as [z|z]; simpl; try discriminate;
    intros H1 H2.
  - apply Qeq_bool_iff in H1. injection H2 as H2. apply Qle_bool_iff in H2.
    f_equal. apply Qle_bool_iff. now rewrite H1.
  - apply Z.eqb_eq in H1. now subst.
Qed.

Lemma scalar_le_trans_eq_r (v lo hi : Scalar) :
  scalar_eqb v hi = true -> scalar_le lo hi = inr true -> scalar_le lo v = inr true.
Proof.
  destruct v as [x|x], lo as [y|y], hi as [z|z]; simpl; try discriminate;
    intros H1 H2.
  - apply Qeq_bool_iff in H1. injection H2 as H2. apply Qle_bool_iff in H2.
    f_equal. apply Qle_bool_iff. now rewrite H1.
  - apply Z.eqb_eq in H1. now subst.
Qed.

(** Two scalars that compare are of one kind, so every comparison between
    them and a third scalar equal to one of them returns. *)
Lemma scalar_lt_returns (a b c : Scalar) :
  scalar_le a b = inr true -> scalar_eqb c a = true \/ scalar_eqb c b = true ->
  (exists x, scalar_lt c b = inr x) /\ (exists x, scalar_le c b = inr x) /\
  (exists x, scalar_lt a c = inr x) /\ (exists x, scalar_le a c = inr x).
Proof.
  destruct a, b, c; simpl; try discriminate; intros _ [H|H];
    try discriminate; eauto 10.
Qed.

(** C2. With both bounds present and [min <= max]: when neither flag is
    strict, an observed mean equal to [min_value] or to [max_value]
    validates; when [strict_min] is set an observed mean equal to
    [min_value] fails, and when [strict_max] is set an observed mean equal
    to [max_value] fails. *)
Theorem validate_at_endpoints (self : BetweenFields)
    (metrics : gmap string Measurement) (lo hi v : Scalar) :
  min_value self = Some lo ->
  max_value self = Some hi ->
  scalar_le lo hi = inr true ->
  metrics !! "column.mean" = Some (Observed v) ->
  (strict_min self = false -> strict_max self = false ->
   scalar_eqb v lo = true \/ scalar_eqb v hi = true ->
   exists verdict, _validate self metrics = inr verdict /\
                   verdict_success verdict = true) /\
  (strict_min self = true -> scalar_eqb v lo = true ->
   exists verdict, _validate self metrics = inr verdict /\
                   verdict_success verdict = false) /\
  (strict_max self = true -> scalar_eqb v hi = true ->
   exists verdict, _validate self metrics = inr verdict /\
                   verdict_success verdict = false).
Proof.
  intros Hlo Hhi Hle Hm.
  unfold _validate, _validate_metric_value_between. rewrite Hm, Hlo, Hhi.
  repeat split.
  - intros -> -> [Heq|Heq].
    + rewrite (scalar_le_eq_l _ _ Heq), (scalar_le_trans_eq_l _ _ _ Heq Hle).
      eexists. split; reflexivity.
    + rewrite (scalar_le_eq_r _ _ Heq), (scalar_le_trans_eq_r _ _ _ Heq Hle).
      eexists. split; reflexivity.
  - intros -> Heq. rewrite (scalar_lt_eq_l _ _ Heq).
    destruct (scalar_lt_returns lo hi v Hle (or_introl Heq))
      as ([x Hx] & [y Hy] & _).
    destruct (strict_max self); [rewrite Hx | rewrite Hy];
      eexists; split; reflexivity.
  - intros -> Heq. rewrite (scalar_lt_eq_r _ _ Heq).
    destruct (scalar_lt_returns lo hi v Hle (or_intror Heq))
      as (_ & _ & [x Hx] & [y Hy]).
    destruct (strict_min self); [rewrite Hx | rewrite Hy];
      eexists; (split; [reflexivity|]); cbn; apply andb_false_r.
Qed.

End BoundFacts.

(** ** The declared field [ignore_row_if] *)

Section FieldFacts.

Import ExpectMulticolumnSumToEqual.

(** C9. [ignore_row_if] has exactly the three variants
    [all_values_are_missing], [any_value_is_missing] and [never]; an omitted
    value takes the default [all_values_are_missing]; a supplied value is
    accepted if and only if it is the name of one of the three, and any
    other value is rejected with a configuration error. *)
Theorem ignore_row_if_variants :
  (forall p : IgnoreRowIf,
     p = all_values_are_missing \/ p = any_value_is_missing \/ p = never) /\
  validate_ignore_row_if None = inr all_values_are_missing /\
  (forall (v : PyVal) (p : IgnoreRowIf),
     validate_ignore_row_if (Some v) = inr p <-> v = PyStr (ignore_row_if_name p)) /\
  (forall v : PyVal,
     (forall p, v <> PyStr (ignore_row_if_name p)) ->
     validate_ignore_row_if (Some v) = inl (InvalidFieldValue "ignore_row_if")).
Proof.
  assert (Hiff : forall v p,
    validate_ignore_row_if (Some v) = inr p <-> v = PyStr (ignore_row_if_name p)).
  { intros v p. split.
    - destruct v; simpl; try discriminate.
      destruct (String.eqb_spec s "all_values_are_missing") as [->|];
        [intros [= <-]; reflexivity|].
      destruct (String.eqb_spec s "any_value_is_missing") as [->|];
        [intros [= <-]; reflexivity|].
      destruct (String.eqb_spec s "never") as [->|];
        [intros [= <-]; reflexivity|].
      discriminate.
    - intros ->. now destruct p. }
  repeat split.
  - intros []; auto.
  - apply Hiff.
  - apply Hiff.
  - intros v Hv.
    destruct (validate_ignore_row_if (Some v)) as [[f]|p] eqn:E.
    + destruct v; simpl in E; try (injection E as <-; reflexivity).
      repeat (destruct (String.eqb _ _); try discriminate E).
      injection E as <-. reflexivity.
    + apply Hiff in E. now contradiction (Hv p).
Qed.

End FieldFacts.

(** ** The multicolumn-sum renderer *)

Section MulticolumnFacts.

Import ExpectMulticolumnSumToEqual.

Variable num_to_str : PyVal -> M string.

Lemma str_int_inj (a b : Z) : str_int a = str_int b -> a = b.
Proof.
  unfold str_int. intros H.
  assert (Hnn : forall z, Z.to_int z <> Decimal.Pos Decimal.Nil /\
                          Z.to_int z <> Decimal.Neg Decimal.Nil).
  { intros [|p|p]; simpl; split; try discriminate;
      intros [= Hp]; now apply DecimalPos.Unsigned.to_uint_nonnil in Hp. }
  apply DecimalZ.to_int_inj.
  assert (Some (Z.to_int a) = Some (Z.to_int b)) as [= ->]; [|reflexivity].
  rewrite <- (NilZero.isi (Z.to_int a)), <- (NilZero.isi (Z.to_int b))
    by apply Hnn.
  now rewrite H.
Qed.

Lemma column_key_inj (i j : nat) : column_key i = column_key j -> i = j.
Proof.
  unfold column_key. intros H. apply (inj (String.app _)) in H.
  apply str_int_inj in H. lia.
Qed.

Lemma column_key_not_column_list (i : nat) : column_key i <> "column_list".
Proof.
  unfold column_key. intros H.
  change ("column_list" ++ ("_" ++ str_int (Z.of_nat i)) = "column_list" ++ "") in H.
  apply (inj (String.app _)) in H. discriminate H.
Qed.

Lemma list_getitem_nat {A : Type} (l : list A) (i : nat) (x : A) :
  l !! i = Some x -> list_getitem l (Z.of_nat i) = ret x.
Proof.
  intros H. pose proof (lookup_lt_Some _ _ _ H) as Hlt.
  assert (Hneg : (Z.of_nat i <? 0)%Z = false) by (apply Z.ltb_ge; lia).
  assert (Hin : (Z.of_nat (length l) <=? Z.of_nat i)%Z = false)
    by (apply Z.leb_gt; lia).
  unfold list_getitem. cbv zeta. rewrite Hneg. cbv iota.
  rewrite Hneg, Hin. cbn [orb]. now rewrite Nat2Z.id, H.
Qed.

(** The first loop, from any index on: it returns, appends the separated
    placeholders and adds the bindings. *)
Lemma for_in_columns (cols : list PyVal) (m a : nat) (s : string) (p : dict) :
  p !! "column_list" = Some (PyList cols) ->
  (a + m <= length cols)%nat ->
  for_in (map Z.of_nat (seq a m)) column_list_body (s, p) =
  ret (s ++ separated (seq a m), bind_columns cols (seq a m) p).
Proof.
  revert a s p. induction m as [|m IH]; intros a s p Hp Hlen.
  - cbn. f_equal. f_equal. clear. induction s as [|c s IH]; [reflexivity|].
    change (String c s = String c (s ++ "")). now rewrite <- IH.
  - cbn [seq map for_in]. unfold column_list_body at 1.
    unfold dict_getitem. rewrite Hp. cbn [bind ret getitem].
    destruct (lookup_lt_is_Some_2 cols a) as [x Hx]; [lia|].
    rewrite (list_getitem_nat _ _ _ Hx). cbn [bind ret].
    fold (column_key a). rewrite IH; [|rewrite lookup_insert_ne;
      [exact Hp | apply column_key_not_column_list]|lia].
    cbn [separated bind_columns]. rewrite Hx. cbn [default].
    unfold column_placeholder. f_equal. f_equal.
    now rewrite !string_app_assoc.
Qed.

Lemma bind_columns_app (cols : list PyVal) (xs ys : list nat) (p : dict) :
  bind_columns cols (xs ++ ys)%list p = bind_columns cols ys (bind_columns cols xs p).
Proof.
  revert p. induction xs as [|x xs IH]; intros p; [reflexivity|].
  cbn [app bind_columns]. apply IH.
Qed.

Lemma bind_columns_lookup_other (cols : list PyVal) (idxs : list nat) (p : dict)
    (k : string) :
  (forall i, i ∈ idxs -> column_key i <> k) ->
  bind_columns cols idxs p !! k = p !! k.
Proof.
  revert p. induction idxs as [|i idxs IH]; intros p Hk; [reflexivity|].
  cbn [bind_columns]. rewrite IH.
  - apply lookup_insert_ne, Hk. now left.
  - intros j Hj. apply Hk. now right.
Qed.

Lemma bind_columns_lookup (cols : list PyVal) (idxs : list nat) (p : dict)
    (i : nat) (c : PyVal) :
  NoDup idxs -> i ∈ idxs -> cols !! i = Some c ->
  bind_columns cols idxs p !! column_key i = Some c.
Proof.
  revert p. induction idxs as [|j idxs IH]; intros p Hnd Hin Hc;
    [now apply elem_of_nil in Hin|].
  apply NoDup_cons in Hnd as [Hj Hnd]. cbn [bind_columns].
  apply elem_of_cons in Hin as [->|Hin].
  - rewrite bind_columns_lookup_other.
    + now rewrite lookup_insert_eq, Hc.
    + intros i Hi Heq. apply column_key_inj in Heq. now subst.
  - now apply IH.
Qed.

Lemma concat_cons_seq (x : string) (b m : nat) :
  String.concat ", " (x :: map column_placeholder (seq b (S m))) =
  x ++ ", " ++ String.concat ", " (map column_placeholder (seq b (S m))).
Proof. reflexivity. Qed.

Lemma separated_concat (a m : nat) :
  String.concat ", " (map column_placeholder (seq a (S m))) =
  separated (seq a m) ++ column_placeholder (a + m).
Proof.
  revert a. induction m as [|m IH]; intros a.
  - cbn. now rewrite Nat.add_0_r.
  - change (seq a (S (S m))) with (a :: seq (S a) (S m)).
    rewrite map_cons, concat_cons_seq, IH.
    change (seq a (S m)) with (a :: seq (S a) m). cbn [separated].
    rewrite !string_app_assoc. now rewrite Nat.add_succ_r.
Qed.

(** C5. For a non-empty [column_list] of length [n] the renderer returns
    one content block; its template names the [n] placeholders
    [$column_list_0] to [$column_list_{n-1}] in the order of the list, joined
    by ", " alone, and its params bind [column_list_i] to the [i]-th element
    of [column_list]. The formatting of [mostly], when it is given, is
    assumed to return. *)
Theorem column_list_placeholders (cfg : ExpectationConfiguration)
    (res : option ExpectationValidationResult) (rc : option dict)
    (cols : list PyVal) :
  kwargs cfg !! "column_list" = Some (PyList cols) ->
  cols <> [] ->
  (dict_get (kwargs cfg) "mostly" <> PyNone ->
   exists pct, (let* scaled := py_mul (dict_get (kwargs cfg) "mostly") 100 in
                num_to_str scaled) = inr pct) ->
  exists t,
    _prescriptive_renderer num_to_str (Some cfg) res rc = inr [t] /\
    template (string_template t) =
      "Sum across columns "
        ++ String.concat ", " (map column_placeholder (seq 0 (length cols)))
        ++ " must be $sum_total"
        ++ (if is_None (dict_get (kwargs cfg) "mostly") then ""
            else ", at least $mostly_pct % of the time")
        ++ "." /\
    forall (i : nat) (c : PyVal),
      cols !! i = Some c ->
      params (string_template t) !! column_key i = Some c.
Proof.
  intros Hcols Hne Hmostly.
  destruct cols as [|c0 cols']; [congruence|]. clear Hne.
  set (cols := c0 :: cols') in *. set (n' := length cols').
  assert (Hn : length cols = S n') by reflexivity.
  unfold _prescriptive_renderer. cbn [bind ret].
  set (p0 := substitute_none_for_missing (kwargs cfg) _).
  assert (Hp0 : p0 !! "column_list" = Some (PyList cols))
    by (now apply substitute_keeps).
  assert (Hm0 : dict_getitem p0 "mostly" = ret (dict_get (kwargs cfg) "mostly"))
    by (apply substitute_getitem; set_solver).
  rewrite Hm0. cbn [bind ret].
  assert (Hp1 : exists p1,
    (if negb (is_None (dict_get (kwargs cfg) "mostly"))
     then let* scaled := py_mul (dict_get (kwargs cfg) "mostly") 100 in
          let* mostly_pct := num_to_str scaled in
          ret (<["mostly_pct" := PyStr mostly_pct]> p0)
     else ret p0) = inr p1 /\
    p1 !! "column_list" = Some (PyList cols) /\
    dict_get p1 "mostly" = dict_get (kwargs cfg) "mostly").
  { destruct (is_None (dict_get (kwargs cfg) "mostly")) eqn:Hnone; cbn [negb].
    - exists p0. repeat split; [exact Hp0|]. apply substitute_get.
    - destruct Hmostly as [pct Hpct]; [intros E; now rewrite E in Hnone|].
      destruct (py_mul (dict_get (kwargs cfg) "mostly") 100) as [e|scaled];
        [discriminate Hpct|].
      cbn [bind] in Hpct |- *. rewrite Hpct. cbn [bind ret]. eexists.
      split; [reflexivity|]. split.
      + now rewrite lookup_insert_ne.
      + unfold dict_get. rewrite lookup_insert_ne by done. apply substitute_get. }
  destruct Hp1 as (p1 & -> & Hp1 & Hm1). cbn [bind ret].
  rewrite Hm1. unfold dict_getitem at 1. rewrite Hp1. cbn [bind ret len].
  rewrite Hn.
  replace (py_range (Z.of_nat (S n') - 1)) with (map Z.of_nat (seq 0 n'))
    by (unfold py_range; f_equal; f_equal; lia).
  rewrite (for_in_columns cols n' 0 "" p1 Hp1) by lia. cbn [bind ret].
  assert (Hp2 : bind_columns cols (seq 0 n') p1 !! "column_list" = Some (PyList cols)).
  { rewrite bind_columns_lookup_other; [exact Hp1|].
    intros i _. apply column_key_not_column_list. }
  unfold dict_getitem. rewrite Hp2. cbn [bind ret len]. rewrite Hn.
  replace (Z.of_nat (S n') - 1)%Z with (Z.of_nat n') by lia.
  destruct (lookup_lt_is_Some_2 cols n') as [x Hx]; [lia|].
  cbn [getitem]. rewrite (list_getitem_nat _ _ _ Hx). cbn [bind ret].
  eexists. split; [reflexivity|]. cbn [template params string_template]. split.
  - rewrite (separated_concat 0 n'). cbn [Nat.add].
    unfold column_placeholder. now rewrite !string_app_assoc.
  - intros i c Hc. fold (column_key n').
    replace (<[column_key n' := x]> (bind_columns cols (seq 0 n') p1))
      with (bind_columns cols (seq 0 (S n')) p1).
    + apply bind_columns_lookup; [apply NoDup_seq| |exact Hc].
      apply elem_of_seq. apply lookup_lt_Some in Hc. lia.
    + rewrite seq_S, bind_columns_app. cbn [bind_columns Nat.add].
      now rewrite Hx.
Qed.

(** C7. Both prescriptive renderers return the same template, params and
    styling whatever the [result] argument is, [None] or a validation
    result: the rendering does not depend on a verdict. *)
Theorem renderers_ignore_result
    (parse : PyVal -> M (string * dict))
    (mean_configuration : ExpectationConfiguration)
    (sum_configuration : option ExpectationConfiguration)
    (runtime_configuration : option dict)
    (result1 result2 : option ExpectationValidationResult) :
  ExpectColumnMeanToBeBetween._prescriptive_renderer
    parse mean_configuration result1 runtime_configuration =
  ExpectColumnMeanToBeBetween._prescriptive_renderer
    parse mean_configuration result2 runtime_configuration /\
  _prescriptive_renderer num_to_str sum_configuration result1 runtime_configuration =
  _prescriptive_renderer num_to_str sum_configuration result2 runtime_configuration.
Proof.
  split.
  - unfold ExpectColumnMeanToBeBetween._prescriptive_renderer. reflexivity.
  - unfold _prescriptive_renderer. reflexivity.
Qed.

(** C8 (the code at the failing input). Rendering a configuration whose
    [column_list] is empty raises [IndexError]: the last index is [-1] and
    the empty list has no element there. *)
Theorem empty_column_list_raises_IndexError
    (res : option ExpectationValidationResult) (rc : option dict) :
  _prescriptive_renderer num_to_str (Some empty_column_list_configuration) res rc =
  inl IndexError.
Proof.
  unfold _prescriptive_renderer. cbn [bind ret].
  set (p0 := substitute_none_for_missing _ _).
  assert (Hp0 : p0 !! "column_list" = Some (PyList []))
    by (now apply substitute_keeps).
  assert (Hm0 : dict_getitem p0 "mostly" = ret PyNone).
  { unfold p0. rewrite substitute_getitem by set_solver. reflexivity. }
  rewrite Hm0. cbn [bind ret is_None negb].
  unfold dict_getitem. rewrite Hp0. cbn [bind ret len length].
  change (py_range (Z.of_nat 0 - 1)) with (@nil Z).
  cbn [for_in bind ret]. rewrite Hp0. reflexivity.
Qed.

End MulticolumnFacts.

(** ** The statements at sample inputs *)

Section Witnesses.

Import ExpectColumnMeanToBeBetween.

Lemma sample_parse_returns (cfg : ExpectationConfiguration) (s : string) :
  dict_get (kwargs cfg) "row_condition" = PyStr s ->
  present (kwargs cfg) "row_condition" = true ->
  exists r, sample_parse (dict_get (kwargs cfg) "row_condition") = inr r.
Proof. intros -> _. eexists. reflexivity. Defined.

Lemma unconstrained_iff_both_bounds_None_witness :
  exists t,
    _prescriptive_renderer sample_parse row_condition_configuration None None = inr [t] /\
    mentions (template (string_template t)) "$min_value" = true /\
    ends_with (template (string_template t)) unconstrained_phrase = false.
Proof.
  destruct (unconstrained_iff_both_bounds_None sample_parse
              row_condition_configuration None None
              zero_min_renderer_configuration
              (sample_parse_returns row_condition_configuration "age > 5" eq_refl))
    as [(t & Ht & Hiff & Hmin) _].
  exists t. split; [exact Ht|]. split.
  - apply Hmin. discriminate.
  - destruct (ends_with (template (string_template t)) unconstrained_phrase);
      [|reflexivity].
    destruct Hiff as [Hiff _]. destruct (Hiff eq_refl) as [Hnone _].
    discriminate Hnone.
Defined.

Lemma validate_at_endpoints_witness :
  (exists verdict, _validate (scenario_A false false) (mean_is 10) = inr verdict /\
                   verdict_success verdict = true) /\
  (exists verdict, _validate (scenario_A true false) (mean_is 10) = inr verdict /\
                   verdict_success verdict = false).
Proof.
  split.
  - destruct (validate_at_endpoints (scenario_A false false) (mean_is 10)
                (Num 10) (Num 20) (Num 10) eq_refl eq_refl eq_refl eq_refl)
      as (H & _ & _).
    apply H; [reflexivity|reflexivity|left; reflexivity].
  - destruct (validate_at_endpoints (scenario_A true false) (mean_is 10)
                (Num 10) (Num 20) (Num 10) eq_refl eq_refl eq_refl eq_refl)
      as (_ & H & _).
    apply H; reflexivity.
Defined.

Lemma template_agrees_with_legacy_witness :
  exists t r,
    _prescriptive_renderer sample_parse zero_min_configuration None None = inr [t] /\
    _prescriptive_template zero_min_renderer_configuration = inr r /\
    template_str r = template (string_template t).
Proof.
  apply (template_agrees_with_legacy sample_parse zero_min_configuration None None
           zero_min_renderer_configuration); reflexivity.
Defined.

Lemma bound_phrase_selection_witness :
  exists t r,
    _prescriptive_renderer sample_parse zero_min_configuration None None = inr [t] /\
    template (string_template t) =
      "$column mean must be greater than or equal to $min_value and strictly less than $max_value." /\
    _prescriptive_template zero_min_renderer_configuration = inr r /\
    template_str r =
      "$column mean must be greater than or equal to $min_value and strictly less than $max_value.".
Proof.
  apply (bound_phrase_selection sample_parse zero_min_configuration None None
           zero_min_renderer_configuration).
  - intros H. discriminate H.
  - reflexivity.
  - reflexivity.
Defined.

Lemma row_condition_prefix_witness :
  exists t0 t,
    _prescriptive_renderer sample_parse
      (without_row_condition row_condition_configuration) None None = inr [t0] /\
    _prescriptive_renderer sample_parse row_condition_configuration None None = inr [t] /\
    template (string_template t) =
      "if $row_condition__0, then " ++ template (string_template t0) /\
    params (string_template t) !! "row_condition__0" = Some (PyStr "age > 5").
Proof.
  destruct (row_condition_prefix sample_parse row_condition_configuration None None
              "if $row_condition__0" {[ "row_condition__0" := PyStr "age > 5" ]}
              (fun _ => eq_refl))
    as (t0 & t & H0 & H & _ & _ & Hrow & _).
  destruct Hrow as [Ht Hp]; [discriminate|].
  exists t0, t. split; [exact H0|]. split; [exact H|]. split; [exact Ht|].
  rewrite Hp. apply lookup_union_Some_l. reflexivity.
Defined.

Lemma column_name_prefix_witness :
  exists t_on t_off,
    _prescriptive_renderer sample_parse zero_min_configuration None None = inr [t_on] /\
    _prescriptive_renderer sample_parse zero_min_configuration None
      (Some no_column_name) = inr [t_off] /\
    template (string_template t_on) = "$column " ++ template (string_template t_off).
Proof.
  destruct (column_name_prefix sample_parse zero_min_configuration None None
              no_column_name zero_min_renderer_configuration)
    as (t_on & t_off & r & Hon & Hoff & _ & _ & Hpre & _).
  - intros H. discriminate H.
  - intros d H. discriminate H.
  - reflexivity.
  - exists t_on, t_off. split; [exact Hon|]. split; [exact Hoff|].
    apply Hpre. reflexivity.
Defined.

Lemma column_list_placeholders_witness :
  exists t,
    ExpectMulticolumnSumToEqual._prescriptive_renderer sample_num_to_str
      (Some three_columns_configuration) None None = inr [t] /\
    template (string_template t) =
      "Sum across columns $column_list_0, $column_list_1, $column_list_2 must be $sum_total, at least $mostly_pct % of the time." /\
    params (string_template t) !! "column_list_1" = Some (PyStr "b").
Proof.
  destruct (column_list_placeholders sample_num_to_str three_columns_configuration
              None None [PyStr "a"; PyStr "b"; PyStr "c"])
    as (t & Ht & Htemplate & Hparams).
  - reflexivity.
  - discriminate.
  - intros _. eexists. reflexivity.
  - exists t. split; [exact Ht|]. split; [exact Htemplate|].
    apply (Hparams 1%nat). reflexivity.
Defined.

End Witnesses.

(** ** Further properties of the mean-between renderers *)

Section MeanBetweenMore.

Import ExpectColumnMeanToBeBetween.

Variable parse : PyVal -> M (string * dict).





Lemma phrase_placeholders (b : bool) (kw : dict) :
  mentions (spec_subject_prefix b ++ phrase_of kw) "$min_value" = present kw "min_value" /\
  mentions (spec_subject_prefix b ++ phrase_of kw) "$max_value" = present kw "max_value" /\
  mentions (spec_subject_prefix b ++ phrase_of kw) "$column" = b.
Proof.
  unfold phrase_of.
  destruct b, (present kw "min_value"), (present kw "max_value"),
           (flag kw "strict_min"), (flag kw "strict_max");
    vm_compute; repeat split.
Qed.

(** X4. Without a row condition a template names a placeholder exactly when
    there is something to put in: [$min_value] iff [min_value] is not
    [None], [$max_value] iff [max_value] is not [None], [$column] iff the
    column name is included; and the legacy params bind [min_value] and
    [max_value] to the configured values. *)
Theorem placeholders_match_bounds (cfg : ExpectationConfiguration)
    (res : option ExpectationValidationResult) (rc : option dict)
    (rcfg : RendererConfiguration) :
  dict_get (kwargs cfg) "row_condition" = PyNone ->
  (exists t,
     _prescriptive_renderer parse cfg res rc = inr [t] /\
     mentions (template (string_template t)) "$min_value" =
       present (kwargs cfg) "min_value" /\
     mentions (template (string_template t)) "$max_value" =
       present (kwargs cfg) "max_value" /\
     mentions (template (string_template t)) "$column" = include_of rc /\
     params (string_template t) !! "min_value" =
       Some (dict_get (kwargs cfg) "min_value") /\
     params (string_template t) !! "max_value" =
       Some (dict_get (kwargs cfg) "max_value")) /\
  (exists r,
     _prescriptive_template rcfg = inr r /\
     mentions (template_str r) "$min_value" = present (rc_kwargs rcfg) "min_value" /\
     mentions (template_str r) "$max_value" = present (rc_kwargs rcfg) "max_value" /\
     mentions (template_str r) "$column" = include_column_name rcfg).
Proof.
  intros Hrow. split.
  - rewrite legacy_normal_form. cbn zeta. rewrite Hrow. cbn [is_None].
    eexists. split; [reflexivity|].
    cbn [template params string_template rendered].
    destruct (phrase_placeholders (include_of rc) (kwargs cfg)) as (H1 & H2 & H3).
    repeat split; try assumption;
      apply substitute_lookup; unfold legacy_keys; set_solver.
  - rewrite template_normal_form. eexists. split; [reflexivity|].
    cbn [template_str]. apply phrase_placeholders.
Qed.

Lemma with_params_again (rcfg r : RendererConfiguration) :
  rc_kwargs r = rc_kwargs rcfg ->
  rc_params r = rc_params (with_params rcfg) ->
  rc_params (with_params r) = rc_params (with_params rcfg).
Proof.
  intros Hkw Hp. unfold with_params, add_param_args in *.
  cbn [foldl add_param rc_params rc_kwargs] in *. rewrite Hkw, Hp.
  apply map_eq. intros k. rewrite !lookup_insert.
  repeat case_decide; reflexivity.
Qed.

(** X5. The new-style template is idempotent: given the renderer
    configuration it returned, it returns it again unchanged. *)
Theorem template_idempotent (rcfg r : RendererConfiguration) :
  _prescriptive_template rcfg = inr r ->
  _prescriptive_template r = inr r.
Proof.
  rewrite template_normal_form. intros [= <-].
  rewrite template_normal_form. cbn [rc_kwargs include_column_name].
  rewrite (with_params_again rcfg) by reflexivity. reflexivity.
Qed.

End MeanBetweenMore.

(** ** Further properties of the multicolumn-sum renderer *)

Section MulticolumnMore.

Import ExpectMulticolumnSumToEqual.

Variable num_to_str : PyVal -> M string.

Lemma items_len (v : PyVal) (items : list PyVal) :
  items_of v = Some items -> len v = ret (Z.of_nat (length items)).
Proof.
  destruct v; simpl; try discriminate; intros [= <-]; [|reflexivity].
  now rewrite length_map, length_list_ascii.
Qed.

Lemma items_getitem (v : PyVal) (items : list PyVal) (i : nat) (x : PyVal) :
  items_of v = Some items -> items !! i = Some x ->
  getitem v (Z.of_nat i) = ret x.
Proof.
  destruct v; simpl; try discriminate; intros [= <-] Hx.
  - change (map ?f ?l) with (f <$> l) in Hx. rewrite list_lookup_fmap in Hx.
    destruct (list_ascii_of_string s !! i) as [c|] eqn:Hc; [|discriminate Hx].
    injection Hx as <-. now rewrite (list_getitem_nat _ _ _ Hc).
  - now apply list_getitem_nat.
Qed.

Lemma items_empty_getitem (v : PyVal) :
  items_of v = Some [] -> getitem v (-1) = raise IndexError.
Proof.
  destruct v; simpl; try discriminate; intros [= H].
  - destruct s; [reflexivity|discriminate H].
  - now subst.
Qed.

(** The first loop over the elements of any value that has some. *)
Lemma for_in_items (v : PyVal) (items : list PyVal) (m a : nat) (s : string)
    (p : dict) :
  p !! "column_list" = Some v ->
  items_of v = Some items ->
  (a + m <= length items)%nat ->
  for_in (map Z.of_nat (seq a m)) column_list_body (s, p) =
  ret (s ++ separated (seq a m), bind_columns items (seq a m) p).
Proof.
  intros Hp Hv. revert a s p Hp. induction m as [|m IH]; intros a s p Hp Hlen.
  - cbn. f_equal. f_equal. clear. induction s as [|c s IH]; [reflexivity|].
    change (String c s = String c (s ++ "")). now rewrite <- IH.
  - cbn [seq map for_in]. unfold column_list_body at 1.
    unfold dict_getitem. rewrite Hp. cbn [bind ret].
    destruct (lookup_lt_is_Some_2 items a) as [x Hx]; [lia|].
    rewrite (items_getitem _ _ _ _ Hv Hx). cbn [bind ret].
    fold (column_key a). rewrite IH; [|rewrite lookup_insert_ne;
      [exact Hp | apply column_key_not_column_list]|lia].
    cbn [separated bind_columns]. rewrite Hx. cbn [default].
    unfold column_placeholder. f_equal. f_equal.
    now rewrite !string_app_assoc.
Qed.

Lemma column_key_not_mostly_pct (i : nat) : column_key i <> "mostly_pct".
Proof.
  unfold column_key.
  change ("column_list_" ++ str_int (Z.of_nat i))
    with (String "c" ("olumn_list_" ++ str_int (Z.of_nat i))).
  discriminate.
Qed.

(** What [sum_params] returns binds the three keys as the kwargs do and
    differs from the filled-in kwargs at [mostly_pct] only. *)
Lemma sum_params_lookup (kw p1 : dict) :
  sum_params num_to_str kw = inr p1 ->
  p1 !! "column_list" = Some (dict_get kw "column_list") /\
  dict_get p1 "mostly" = dict_get kw "mostly" /\
  (forall k, k <> "mostly_pct" ->
     p1 !! k = substitute_none_for_missing kw sum_keys !! k).
Proof.
  unfold sum_params. set (p0 := substitute_none_for_missing kw sum_keys).
  assert (Hc : p0 !! "column_list" = Some (dict_get kw "column_list"))
    by (apply substitute_lookup; unfold sum_keys; set_solver).
  assert (Hm : dict_get p0 "mostly" = dict_get kw "mostly")
    by apply substitute_get.
  clearbody p0.
  destruct (is_None (dict_get kw "mostly")); cbn [negb].
  - intros [= <-]. auto.
  - destruct (py_mul (dict_get kw "mostly") 100) as [e|scaled]; [discriminate|].
    cbn [bind]. destruct (num_to_str scaled) as [e|pct]; [discriminate|].
    cbn [bind ret]. intros [= <-]. split; [|split].
    + now rewrite lookup_insert_ne.
    + unfold dict_get. rewrite lookup_insert_ne by done. exact Hm.
    + intros k Hk. now rewrite lookup_insert_ne.
Qed.

(** The multicolumn renderer in normal form: the params before the loop,
    then what the loop does on the elements of [column_list]. *)
Lemma sum_renderer_normal_form (cfg : ExpectationConfiguration)
    (res : option ExpectationValidationResult) (rc : option dict) :
  _prescriptive_renderer num_to_str (Some cfg) res rc =
  let* p1 := sum_params num_to_str (kwargs cfg) in
  match items_of (dict_get (kwargs cfg) "column_list") with
  | Some items =>
      match length items with
      | O => raise IndexError
      | S n' =>
          ret (rendered (sum_template (S n') (present (kwargs cfg) "mostly"))
                        (bind_columns items (seq 0 (S n')) p1)
                        (dict_get (or_empty rc) "styling"))
      end
  | None => raise (column_list_error (dict_get (kwargs cfg) "column_list"))
  end.
Proof.
  unfold _prescriptive_renderer. cbn [bind ret]. fold sum_keys.
  rewrite (substitute_getitem _ _ "mostly") by (unfold sum_keys; set_solver).
  cbn [bind ret].
  change (if negb (is_None (dict_get (kwargs cfg) "mostly")) then _ else _)
    with (sum_params num_to_str (kwargs cfg)).
  destruct (sum_params num_to_str (kwargs cfg)) as [e|p1] eqn:Hs; [reflexivity|].
  cbn [bind ret].
  destruct (sum_params_lookup _ _ Hs) as (Hcol & Hm & _).
  rewrite Hm. unfold dict_getitem at 1. rewrite Hcol. cbn [bind ret].
  set (v := dict_get (kwargs cfg) "column_list") in *.
  destruct (items_of v) as [items|] eqn:Hv.
  - rewrite (items_len _ _ Hv). cbn [bind ret].
    destruct (length items) as [|n'] eqn:Hn.
    + change (py_range (Z.of_nat 0 - 1)) with (@nil Z).
      cbn [for_in bind ret]. unfold dict_getitem. rewrite Hcol. cbn [bind ret].
      rewrite (items_len _ _ Hv), Hn. cbn [bind ret].
      destruct items; [|discriminate Hn].
      change (Z.of_nat 0 - 1)%Z with (-1)%Z.
      now rewrite (items_empty_getitem _ Hv).
    + replace (py_range (Z.of_nat (S n') - 1)) with (map Z.of_nat (seq 0 n'))
        by (unfold py_range; f_equal; f_equal; lia).
      rewrite (for_in_items v items n' 0 "" p1 Hcol Hv) by lia. cbn [bind ret].
      assert (Hp2 : bind_columns items (seq 0 n') p1 !! "column_list" = Some v).
      { rewrite bind_columns_lookup_other; [exact Hcol|].
        intros i _. apply column_key_not_column_list. }
      unfold dict_getitem. rewrite Hp2. cbn [bind ret].
      rewrite (items_len _ _ Hv), Hn. cbn [bind ret].
      replace (Z.of_nat (S n') - 1)%Z with (Z.of_nat n') by lia.
      destruct (lookup_lt_is_Some_2 items n') as [x Hx]; [lia|].
      rewrite (items_getitem _ _ _ _ Hv Hx). cbn [bind ret].
      unfold rendered, sum_template, present. f_equal. f_equal. f_equal. f_equal.
      * rewrite (separated_concat 0 n'). cbn [Nat.add].
        unfold column_placeholder.
        destruct (is_None (dict_get (kwargs cfg) "mostly")); cbn [negb];
          now rewrite !string_app_assoc.
      * fold (column_key n'). rewrite seq_S, bind_columns_app.
        cbn [bind_columns Nat.add]. now rewrite Hx.
  - destruct v; try discriminate Hv; try reflexivity.
    cbn [len bind ret column_list_error].
    destruct (py_range (Z.of_nat (length d) - 1)) as [|z zs].
    + cbn [for_in bind ret]. unfold dict_getitem. rewrite Hcol. reflexivity.
    + cbn [for_in]. unfold column_list_body at 1. unfold dict_getitem.
      rewrite Hcol. reflexivity.
Qed.

Lemma substitute_lookup_other (kw : dict) (keys : list string) (k : string) :
  k ∉ keys -> substitute_none_for_missing kw keys !! k = kw !! k.
Proof.
  revert kw. induction keys as [|a keys IH]; intros kw Hk; [reflexivity|].
  apply not_elem_of_cons in Hk as [Hne Hk].
  rewrite substitute_cons, IH by exact Hk.
  destruct (kw !! a); [reflexivity|]. now rewrite lookup_insert_ne.
Qed.

Lemma sum_params_without_mostly (kw : dict) :
  dict_get kw "mostly" = PyNone ->
  sum_params num_to_str kw = inr (substitute_none_for_missing kw sum_keys).
Proof. intros H. unfold sum_params. now rewrite H. Qed.

Lemma sum_params_mostly_pct (kw p1 : dict) :
  sum_params num_to_str kw = inr p1 ->
  (present kw "mostly" = true ->
   exists scaled pct,
     py_mul (dict_get kw "mostly") 100 = inr scaled /\
     num_to_str scaled = inr pct /\
     p1 !! "mostly_pct" = Some (PyStr pct)) /\
  (present kw "mostly" = false -> p1 !! "mostly_pct" = kw !! "mostly_pct").
Proof.
  unfold sum_params, present.
  set (p0 := substitute_none_for_missing kw sum_keys).
  assert (Hp0 : p0 !! "mostly_pct" = kw !! "mostly_pct").
  { apply substitute_lookup_other. unfold sum_keys. intros Hin.
    repeat (apply elem_of_cons in Hin as [Hin|Hin]; [discriminate Hin|]).
    now apply elem_of_nil in Hin. }
  clearbody p0.
  destruct (is_None (dict_get kw "mostly")); cbn [negb].
  - intros [= <-]. split; [discriminate|]. intros _. exact Hp0.
  - destruct (py_mul (dict_get kw "mostly") 100) as [e|scaled]; [discriminate|].
    cbn [bind]. destruct (num_to_str scaled) as [e|pct] eqn:Hpct; [discriminate|].
    cbn [bind ret]. intros [= <-]. split; [|discriminate].
    intros _. exists scaled, pct. repeat split; [exact Hpct|].
    apply lookup_insert_eq.
Qed.

(** What the renderer returned, read back: the params before the loop, the
    elements of [column_list] and their number. *)
Lemma sum_renderer_returned (cfg : ExpectationConfiguration)
    (res : option ExpectationValidationResult) (rc : option dict)
    (t : RenderedStringTemplateContent) :
  _prescriptive_renderer num_to_str (Some cfg) res rc = inr [t] ->
  exists p1 items n',
    sum_params num_to_str (kwargs cfg) = inr p1 /\
    items_of (dict_get (kwargs cfg) "column_list") = Some items /\
    length items = S n' /\
    template (string_template t) = sum_template (S n') (present (kwargs cfg) "mostly") /\
    params (string_template t) = bind_columns items (seq 0 (S n')) p1.
Proof.
  rewrite sum_renderer_normal_form. cbn zeta.
  destruct (sum_params num_to_str (kwargs cfg)) as [e|p1]; [discriminate|].
  cbn [bind].
  destruct (items_of (dict_get (kwargs cfg) "column_list")) as [items|];
    [|discriminate].
  destruct (length items) as [|n'] eqn:Hn; [discriminate|].
  intros [= <-]. exists p1, items, n'. repeat split. exact Hn.
Qed.


(** X7. When [mostly] is given and its percentage cannot be formatted (the
    product with 100 or [num_to_str] raises), the renderer raises that
    exception, whatever [column_list] is. *)
Theorem sum_renderer_raises_on_unformattable_mostly
    (cfg : ExpectationConfiguration)
    (res : option ExpectationValidationResult) (rc : option dict) (e : PyErr) :
  dict_get (kwargs cfg) "mostly" <> PyNone ->
  (let* scaled := py_mul (dict_get (kwargs cfg) "mostly") 100 in
   num_to_str scaled) = inl e ->
  _prescriptive_renderer num_to_str (Some cfg) res rc = inl e.
Proof.
  intros Hm He. rewrite sum_renderer_normal_form. cbn zeta.
  unfold sum_params.
  destruct (is_None (dict_get (kwargs cfg) "mostly")) eqn:Hnone;
    [destruct (dict_get (kwargs cfg) "mostly"); try discriminate Hnone;
     now contradiction Hm|].
  cbn [negb].
  destruct (py_mul (dict_get (kwargs cfg) "mostly") 100) as [e'|scaled];
    cbn [bind] in He |- *; [now injection He as ->|].
  rewrite He. reflexivity.
Qed.

Lemma prefixb_mismatch (p r x : list ascii) :
  prefixb (take (length r) p) r = false -> prefixb p (r ++ x)%list = false.
Proof.
  revert r. induction p as [|a p IH]; intros [|b r]; simpl; try discriminate.
  destruct (Ascii.eqb a b); simpl; [apply IH|reflexivity].
Qed.

Lemma ends_with_mismatch (a b suf : string) :
  prefixb (take (String.length b) (rev (list_ascii_of_string suf)))
          (rev (list_ascii_of_string b)) = false ->
  ends_with (a ++ b) suf = false.
Proof.
  intros H. unfold ends_with. rewrite list_ascii_of_string_app, rev_app_distr.
  apply prefixb_mismatch. now rewrite length_rev, length_list_ascii.
Qed.

Lemma sum_template_ends_with_mostly (n : nat) (b : bool) :
  ends_with (sum_template n b) ", at least $mostly_pct % of the time." = b.
Proof.
  unfold sum_template. rewrite <- string_app_assoc. destruct b.
  - rewrite ends_with_app by (vm_compute; lia). reflexivity.
  - apply ends_with_mismatch. reflexivity.
Qed.

(** X8. Whenever the renderer returns, its template ends with
    ", at least $mostly_pct % of the time." exactly when [mostly] is not
    [None]; then [mostly_pct] is bound in the params to the string
    [num_to_str] made of 100 times [mostly], and otherwise [mostly_pct] is
    whatever the kwargs had there. *)
Theorem mostly_pct_named_iff_bound (cfg : ExpectationConfiguration)
    (res : option ExpectationValidationResult) (rc : option dict)
    (t : RenderedStringTemplateContent) :
  _prescriptive_renderer num_to_str (Some cfg) res rc = inr [t] ->
  ends_with (template (string_template t)) ", at least $mostly_pct % of the time."
    = present (kwargs cfg) "mostly" /\
  (present (kwargs cfg) "mostly" = true ->
   exists scaled pct,
     py_mul (dict_get (kwargs cfg) "mostly") 100 = inr scaled /\
     num_to_str scaled = inr pct /\
     params (string_template t) !! "mostly_pct" = Some (PyStr pct)) /\
  (present (kwargs cfg) "mostly" = false ->
   params (string_template t) !! "mostly_pct" = kwargs cfg !! "mostly_pct").
Proof.
  intros Hr.
  destruct (sum_renderer_returned _ _ _ _ Hr) as (p1 & items & n' & Hs & _ & _ & -> & ->).
  split; [apply sum_template_ends_with_mostly|].
  rewrite bind_columns_lookup_other
    by (intros i _; apply column_key_not_mostly_pct).
  destruct (sum_params_mostly_pct _ _ Hs) as [Hgiven Hnot]. split; assumption.
Qed.

(** X9. Whenever the renderer returns, its params still hold the kwargs:
    [column_list] and [sum_total] as configured, and every other kwarg
    whose name is neither [mostly_pct] nor a [column_list_i] unchanged. *)
Theorem sum_params_keep_kwargs (cfg : ExpectationConfiguration)
    (res : option ExpectationValidationResult) (rc : option dict)
    (t : RenderedStringTemplateContent) :
  _prescriptive_renderer num_to_str (Some cfg) res rc = inr [t] ->
  params (string_template t) !! "column_list" =
    Some (dict_get (kwargs cfg) "column_list") /\
  params (string_template t) !! "sum_total" =
    Some (dict_get (kwargs cfg) "sum_total") /\
  (forall k v,
     k <> "mostly_pct" -> (forall i, k <> column_key i) ->
     kwargs cfg !! k = Some v ->
     params (string_template t) !! k = Some v).
Proof.
  intros Hr.
  destruct (sum_renderer_returned _ _ _ _ Hr) as (p1 & items & n' & Hs & _ & _ & _ & ->).
  destruct (sum_params_lookup _ _ Hs) as (Hcol & _ & Hother).
  split; [|split].
  - rewrite bind_columns_lookup_other; [exact Hcol|].
    intros i _. apply column_key_not_column_list.
  - rewrite bind_columns_lookup_other.
    + rewrite Hother by done.
      apply substitute_lookup. unfold sum_keys. set_solver.
    + intros i _. unfold column_key.
      change ("column_list_" ++ str_int (Z.of_nat i))
        with (String "c" ("olumn_list_" ++ str_int (Z.of_nat i))).
      discriminate.
  - intros k v Hk Hcols Hv. rewrite bind_columns_lookup_other.
    + rewrite Hother by exact Hk. now apply substitute_keeps.
    + intros i _ Heq. now apply (Hcols i).
Qed.

(** X10. The template of the multicolumn renderer carries neither the
    column names nor the total nor the value of [mostly]: two
    configurations whose column lists have the same length and which both
    give [mostly] or both leave it out get the same template, when the
    renderer returns for both. *)
Theorem sum_template_ignores_values (cfg1 cfg2 : ExpectationConfiguration)
    (res1 res2 : option ExpectationValidationResult) (rc1 rc2 : option dict)
    (t1 t2 : RenderedStringTemplateContent) :
  _prescriptive_renderer num_to_str (Some cfg1) res1 rc1 = inr [t1] ->
  _prescriptive_renderer num_to_str (Some cfg2) res2 rc2 = inr [t2] ->
  len (dict_get (kwargs cfg1) "column_list") = len (dict_get (kwargs cfg2) "column_list") ->
  present (kwargs cfg1) "mostly" = present (kwargs cfg2) "mostly" ->
  template (string_template t1) = template (string_template t2).
Proof.
  intros H1 H2 Hlen Hm.
  destruct (sum_renderer_returned _ _ _ _ H1) as (? & items1 & n1 & _ & Hi1 & Hn1 & -> & _).
  destruct (sum_renderer_returned _ _ _ _ H2) as (? & items2 & n2 & _ & Hi2 & Hn2 & -> & _).
  rewrite (items_len _ _ Hi1), (items_len _ _ Hi2), Hn1, Hn2 in Hlen.
  assert (Hz : Z.of_nat (S n1) = Z.of_nat (S n2))
    by (unfold ret in Hlen; congruence).
  apply Nat2Z.inj in Hz. now rewrite Hm, Hz.
Qed.

(** X11. A [column_list] given as one non-empty string is walked character
    by character: the renderer returns a template with one placeholder per
    character and binds [column_list_i] to the [i]-th character. *)
Theorem string_column_list_is_split (cfg : ExpectationConfiguration)
    (res : option ExpectationValidationResult) (rc : option dict) (s : string) :
  kwargs cfg !! "column_list" = Some (PyStr s) ->
  s <> "" ->
  dict_get (kwargs cfg) "mostly" = PyNone ->
  exists t,
    _prescriptive_renderer num_to_str (Some cfg) res rc = inr [t] /\
    template (string_template t) = sum_template (String.length s) false /\
    forall (i : nat) (c : ascii),
      list_ascii_of_string s !! i = Some c ->
      params (string_template t) !! column_key i = Some (PyStr (String c EmptyString)).
Proof.
  intros Hcol Hne Hm.
  rewrite sum_renderer_normal_form. cbn zeta.
  rewrite (sum_params_without_mostly _ Hm). cbn [bind].
  assert (Hv : dict_get (kwargs cfg) "column_list" = PyStr s)
    by (unfold dict_get; now rewrite Hcol).
  rewrite Hv. cbn [items_of]. rewrite length_map, length_list_ascii.
  destruct s as [|c0 s']; [congruence|]. cbn [String.length].
  eexists. split; [reflexivity|]. cbn [template params string_template rendered].
  split.
  - unfold present. now rewrite Hm.
  - intros i c Hc. apply bind_columns_lookup.
    + apply NoDup_seq.
    + apply elem_of_seq. apply lookup_lt_Some in Hc.
      rewrite length_list_ascii in Hc. cbn [String.length] in Hc. lia.
    + change (map ?f ?l) with (f <$> l). now rewrite list_lookup_fmap, Hc.
Qed.

End MulticolumnMore.

(** ** The runtime configuration and the descriptive renderer *)

Section OtherArguments.

Variable parse : PyVal -> M (string * dict).
Variable num_to_str : PyVal -> M string.
Variable format_2f : PyVal -> M string.



End OtherArguments.

(** ** The further properties at sample inputs *)

Section MoreWitnesses.

Import ExpectColumnMeanToBeBetween.



Lemma placeholders_match_bounds_witness :
  exists t,
    _prescriptive_renderer sample_parse zero_min_configuration None
      (Some no_column_name) = inr [t] /\
    mentions (template (string_template t)) "$min_value" = true /\
    mentions (template (string_template t)) "$column" = false /\
    params (string_template t) !! "min_value" = Some (PyInt 0).
Proof.
  destruct (placeholders_match_bounds sample_parse zero_min_configuration None
              (Some no_column_name) zero_min_renderer_configuration eq_refl)
    as [(t & Ht & Hmin & _ & Hcol & Hp & _) _].
  exists t. repeat split; assumption.
Defined.

Lemma template_idempotent_witness :
  exists r,
    _prescriptive_template other_bounds_renderer_configuration = inr r /\
    _prescriptive_template r = inr r.
Proof.
  eexists. split; [apply template_normal_form|].
  apply (template_idempotent other_bounds_renderer_configuration).
  apply template_normal_form.
Defined.

Lemma sum_renderer_raises_on_unformattable_mostly_witness :
  ExpectMulticolumnSumToEqual._prescriptive_renderer sample_num_to_str
    (Some bad_mostly_configuration) None None = inl TypeError.
Proof.
  apply (sum_renderer_raises_on_unformattable_mostly sample_num_to_str
           bad_mostly_configuration None None TypeError).
  - discriminate.
  - reflexivity.
Defined.

Lemma three_columns_rendered :
  exists t,
    ExpectMulticolumnSumToEqual._prescriptive_renderer sample_num_to_str
      (Some three_columns_configuration) None None = inr [t].
Proof.
  rewrite sum_renderer_normal_form. eexists. reflexivity.
Defined.

Lemma other_columns_rendered :
  exists t,
    ExpectMulticolumnSumToEqual._prescriptive_renderer sample_num_to_str
      (Some other_columns_configuration) None None = inr [t].
Proof.
  rewrite sum_renderer_normal_form. eexists. reflexivity.
Defined.

Lemma mostly_pct_named_iff_bound_witness :
  exists t,
    ExpectMulticolumnSumToEqual._prescriptive_renderer sample_num_to_str
      (Some three_columns_configuration) None None = inr [t] /\
    ends_with (template (string_template t)) ", at least $mostly_pct % of the time."
      = true /\
    params (string_template t) !! "mostly_pct" = Some (PyStr "90").
Proof.
  destruct three_columns_rendered as [t Ht]. exists t. split; [exact Ht|].
  destruct (mostly_pct_named_iff_bound sample_num_to_str
              three_columns_configuration None None t Ht) as (Hend & Hgiven & _).
  split; [exact Hend|].
  destruct (Hgiven eq_refl) as (scaled & pct & Hmul & Hpct & Hp).
  injection Hmul as <-. injection Hpct as <-. exact Hp.
Defined.

Lemma sum_params_keep_kwargs_witness :
  exists t,
    ExpectMulticolumnSumToEqual._prescriptive_renderer sample_num_to_str
      (Some three_columns_configuration) None None = inr [t] /\
    params (string_template t) !! "sum_total" = Some (PyInt 3) /\
    params (string_template t) !! "mostly" = Some (PyFloat (9 # 10)).
Proof.
  destruct three_columns_rendered as [t Ht]. exists t. split; [exact Ht|].
  destruct (sum_params_keep_kwargs sample_num_to_str
              three_columns_configuration None None t Ht) as (_ & Hsum & Hother).
  split; [exact Hsum|].
  apply Hother; [discriminate| |reflexivity].
  intros i. unfold column_key.
  change ("column_list_" ++ str_int (Z.of_nat i))
    with (String "c" ("olumn_list_" ++ str_int (Z.of_nat i))).
  discriminate.
Defined.

Lemma sum_template_ignores_values_witness :
  exists t1 t2,
    ExpectMulticolumnSumToEqual._prescriptive_renderer sample_num_to_str
      (Some three_columns_configuration) None None = inr [t1] /\
    ExpectMulticolumnSumToEqual._prescriptive_renderer sample_num_to_str
      (Some other_columns_configuration) None None = inr [t2] /\
    template (string_template t1) = template (string_template t2).
Proof.
  destruct three_columns_rendered as [t1 H1].
  destruct other_columns_rendered as [t2 H2].
  exists t1, t2. split; [exact H1|]. split; [exact H2|].
  apply (sum_template_ignores_values sample_num_to_str
           three_columns_configuration other_columns_configuration
           None None None None t1 t2 H1 H2); reflexivity.
Defined.

Lemma string_column_list_is_split_witness :
  exists t,
    ExpectMulticolumnSumToEqual._prescriptive_renderer sample_num_to_str
      (Some string_column_list_configuration) None None = inr [t] /\
    template (string_template t) =
      "Sum across columns $column_list_0, $column_list_1 must be $sum_total." /\
    params (string_template t) !! "column_list_1" = Some (PyStr "b").
Proof.
  destruct (string_column_list_is_split sample_num_to_str
              string_column_list_configuration None None "ab")
    as (t & Ht & Htemplate & Hp); [reflexivity|discriminate|reflexivity|].
  exists t. split; [exact Ht|]. split; [exact Htemplate|].
  apply (Hp 1%nat). reflexivity.
Defined.


End MoreWitnesses.
